(** * TradingBot (trade.js): command parser and trade orchestration

    A shallow embedding of [TradingBot.parseCommand], [setLeverage],
    [placeMarketOrder], [placeStopLossOrder], [placeTakeProfitOrder],
    [executeTrade] and [processCommand] of [src/v1/trade.js], and the
    properties of the specification that concern them.

    Modelling conventions.
    - A command is a [string]: one [ascii] per code unit, for the code
      units below 128 that the command grammar is written in. The texts of
      error messages and console lines are kept as the source writes them.
    - A JavaScript Number is a binary64 value, [spec_float] with
      [prec = 53] and [emax = 1024]; decimal literals are rounded to
      nearest, ties to even, as [StringNumericValue] prescribes.
    - [null] is [None].
    - An [async] method is a computation over a [World] that records the
      requests sent to the exchange client and the console lines written;
      a rejected promise or a [throw] is the [inl] result. The exchange
      client is any function from the requests received so far and the
      current request to an answer or a rejection. *)

From Stdlib Require Import ZArith List String Ascii Bool Lia.
From Stdlib Require Import Floats.SpecFloat.
Import ListNotations.
Local Open Scope string_scope.
Local Open Scope Z_scope.

(** ** Strings *)

Module JsString.

(** The characters of [\s] (and of [trim]) among the code units below
    128: TAB, LF, VT, FF, CR and SPACE. *)
Definition isWhiteSpace (c : ascii) : bool :=
  let n := nat_of_ascii c in
  (Nat.leb 9 n && Nat.leb n 13)%bool || Nat.eqb n 32.

Definition isDigit (c : ascii) : bool :=
  let n := nat_of_ascii c in (Nat.leb 48 n && Nat.leb n 57)%bool.

Definition digitValue (c : ascii) : Z := Z.of_nat (nat_of_ascii c) - 48.

(** Value of a hexadecimal digit, [None] for any other character. *)
Definition hexValue (c : ascii) : option Z :=
  let n := nat_of_ascii c in
  if (Nat.leb 48 n && Nat.leb n 57)%bool then Some (Z.of_nat n - 48)
  else if (Nat.leb 65 n && Nat.leb n 70)%bool then Some (Z.of_nat n - 55)
  else if (Nat.leb 97 n && Nat.leb n 102)%bool then Some (Z.of_nat n - 87)
  else None.

Definition upper (c : ascii) : ascii :=
  let n := nat_of_ascii c in
  if (Nat.leb 97 n && Nat.leb n 122)%bool then ascii_of_nat (n - 32) else c.

(** [s.toUpperCase()] *)
Fixpoint toUpperCase (s : string) : string :=
  match s with
  | EmptyString => EmptyString
  | String c s' => String (upper c) (toUpperCase s')
  end.

Fixpoint rev_append (s acc : string) : string :=
  match s with
  | EmptyString => acc
  | String c s' => rev_append s' (String c acc)
  end.

Definition rev (s : string) : string := rev_append s EmptyString.

(** [s.trimStart()] *)
Fixpoint trimStart (s : string) : string :=
  match s with
  | EmptyString => EmptyString
  | String c s' => if isWhiteSpace c then trimStart s' else s
  end.

Definition trimEnd (s : string) : string := rev (trimStart (rev s)).

(** [s.trim()] *)
Definition trim (s : string) : string := trimEnd (trimStart s).

(** [s.split(/\s+/)]: [cur] is the piece being read, reversed, and
    [inrun] tells that the previous character was white space. *)
Fixpoint split_ws_from (inrun : bool) (cur : string) (s : string)
  : list string :=
  match s with
  | EmptyString => [rev cur]
  | String c s' =>
      if isWhiteSpace c
      then if inrun then split_ws_from true cur s'
           else rev cur :: split_ws_from true EmptyString s'
      else split_ws_from false (String c cur) s'
  end.

Definition split_ws (s : string) : list string :=
  split_ws_from false EmptyString s.

(** [s.split(sep)] for a one-character separator. *)
Fixpoint split_char_from (sep : ascii) (cur : string) (s : string)
  : list string :=
  match s with
  | EmptyString => [rev cur]
  | String c s' =>
      if Ascii.eqb c sep then rev cur :: split_char_from sep EmptyString s'
      else split_char_from sep (String c cur) s'
  end.

Definition split_char (sep : ascii) (s : string) : list string :=
  split_char_from sep EmptyString s.

(** [s.startsWith(p)] *)
Definition startsWith (s p : string) : bool := String.prefix p s.

(** [s.replace(c, '')] for a one-character pattern: the first
    occurrence only is removed. *)
Fixpoint remove_first (pat : ascii) (s : string) : string :=
  match s with
  | EmptyString => EmptyString
  | String c s' => if Ascii.eqb c pat then s' else String c (remove_first pat s')
  end.

(** Longest prefix of characters satisfying [p], and the rest. *)
Fixpoint span (p : ascii -> bool) (s : string) : string * string :=
  match s with
  | EmptyString => (EmptyString, EmptyString)
  | String c s' =>
      if p c then let (a, b) := span p s' in (String c a, b)
      else (EmptyString, s)
  end.

End JsString.

(** ** Numbers *)

Module JsNumber.
Import JsString.

Definition Number := spec_float.

Definition prec := 53.
Definition emax := 1024.

Definition NaN : Number := S754_nan.
Definition zero : Number := S754_zero false.

(** Global [isNaN] on a Number. *)
Definition isNaN (x : Number) : bool :=
  match x with S754_nan => true | _ => false end.

(** [x <= y], false when either side is NaN. *)
Definition lessEq (x y : Number) : bool := SFleb x y.

(** [ToBoolean] on a Number: [+0], [-0] and [NaN] are falsy. *)
Definition truthy (x : Number) : bool :=
  match x with
  | S754_zero _ | S754_nan => false
  | _ => true
  end.

(** The Number nearest to [(-1)^neg * m * 10^e], ties to even. *)
Definition ofDecimal (neg : bool) (m : Z) (e : Z) : Number :=
  match m with
  | Zpos p =>
      match e with
      | Zneg k =>
          let '(mz, ez, lz) :=
            SFdiv_core_binary prec emax (Zpos p) 0 (10 ^ Zpos k) 0 in
          binary_round_aux prec emax neg mz ez lz
      | _ => binary_round prec emax neg (Z.to_pos (Zpos p * 10 ^ e)) 0
      end
  | _ => S754_zero neg
  end.

(** Value of a string of decimal digits. *)
Fixpoint digitsValue (acc : Z) (s : string) : Z :=
  match s with
  | EmptyString => acc
  | String c s' => digitsValue (10 * acc + digitValue c) s'
  end.

Definition strlen (s : string) : Z := Z.of_nat (String.length s).

(** An optional sign: whether it is [-], and the rest. *)
Definition takeSign (s : string) : bool * string :=
  match s with
  | String c s' =>
      if Ascii.eqb c "-" then (true, s')
      else if Ascii.eqb c "+" then (false, s')
      else (false, s)
  | EmptyString => (false, s)
  end.

(** [ExponentPart] at the head of [s], when there is one: [e] or [E], an
    optional sign and at least one digit. *)
Definition exponentPart (s : string) : Z :=
  match s with
  | String c s1 =>
      if (Ascii.eqb c "e" || Ascii.eqb c "E")%bool then
        let (neg, s2) := takeSign s1 in
        let (ds, _) := span isDigit s2 in
        match ds with
        | EmptyString => 0
        | _ => if neg then - digitsValue 0 ds else digitsValue 0 ds
        end
      else 0
  | EmptyString => 0
  end.

(** Global [parseFloat]: leading white space is skipped, then the longest
    prefix that is a [StrDecimalLiteral] is read (a sign, then [Infinity]
    or digits with an optional fraction and exponent); [NaN] when there is
    none. The value is rounded exactly, which the language allows to
    differ only beyond the 20th significant digit. *)
Definition parseFloat (input : string) : Number :=
  let (neg, s) := takeSign (trimStart input) in
  if startsWith s "Infinity" then S754_infinity neg
  else
    let (ip, r1) := span isDigit s in
    let '(fp, r2) :=
      match r1 with
      | String c r => if Ascii.eqb c "." then span isDigit r
                      else (EmptyString, r1)
      | EmptyString => (EmptyString, r1)
      end in
    match ip, fp with
    | EmptyString, EmptyString => NaN
    | _, _ =>
        ofDecimal neg (digitsValue 0 (ip ++ fp)) (exponentPart r2 - strlen fp)
    end.

(** Longest prefix of hexadecimal digits, as a value. *)
Fixpoint hexPrefix (acc : option Z) (s : string) : option Z :=
  match s with
  | EmptyString => acc
  | String c s' =>
      match hexValue c with
      | Some d =>
          hexPrefix (Some (16 * match acc with Some a => a | None => 0 end + d)) s'
      | None => acc
      end
  end.

(** The rest of [s] after a leading [0x] or [0X], when there is one. *)
Definition stripHexPrefix (s : string) : option string :=
  match s with
  | String c0 (String c1 s') =>
      if (Ascii.eqb c0 "0" && (Ascii.eqb c1 "x" || Ascii.eqb c1 "X"))%bool
      then Some s' else None
  | _ => None
  end.

(** Longest prefix of decimal digits, as a value; [None] when empty. *)
Definition decimalPrefix (s : string) : option Z :=
  let (ds, _) := span isDigit s in
  match ds with
  | EmptyString => None
  | _ => Some (digitsValue 0 ds)
  end.

(** Global [parseInt] without a radix: leading white space and a sign
    are skipped, [0x] or [0X] selects radix 16, and the longest prefix of
    digits is read. The result is given as the mathematical integer
    read, [None] for [NaN]. The Number returned by JavaScript is that
    integer rounded to binary64; every integer of magnitude up to 2^53
    is returned exactly and rounding is monotone, so comparisons with 1
    and 125 agree with those on the integer. *)
Definition parseInt (input : string) : option Z :=
  let (neg, s) := takeSign (trimStart input) in
  let mathInt :=
    match stripHexPrefix s with
    | Some s' => hexPrefix None s'
    | None => decimalPrefix s
    end in
  match mathInt with
  | Some n => Some (if neg then - n else n)
  | None => None
  end.

End JsNumber.

(** ** Data model *)

Export JsString JsNumber.

(** [tradeParams.side]: the literals ['LONG'] and ['SHORT']. *)
Inductive PositionSide := LONG | SHORT.

(** The [side] of an order request: the literals ['BUY'] and ['SELL']. *)
Inductive OrderSide := BUY | SELL.

(** The [type] of an order request. *)
Inductive OrderType := MARKET | STOP_MARKET | TAKE_PROFIT_MARKET.

(** The object built by [parseCommand]. *)
Record TradeParams := {
  side : PositionSide;
  symbol : string;
  leverage : Z;
  quantity : Number;
  stopLoss : option Number;
  takeProfit : option Number;
  hold : bool
}.

Definition set_stopLoss (v : Number) (tp : TradeParams) : TradeParams :=
  {| side := side tp; symbol := symbol tp; leverage := leverage tp;
     quantity := quantity tp; stopLoss := Some v;
     takeProfit := takeProfit tp; hold := hold tp |}.

Definition set_takeProfit (v : Number) (tp : TradeParams) : TradeParams :=
  {| side := side tp; symbol := symbol tp; leverage := leverage tp;
     quantity := quantity tp; stopLoss := stopLoss tp;
     takeProfit := Some v; hold := hold tp |}.

Definition set_hold (tp : TradeParams) : TradeParams :=
  {| side := side tp; symbol := symbol tp; leverage := leverage tp;
     quantity := quantity tp; stopLoss := stopLoss tp;
     takeProfit := takeProfit tp; hold := true |}.

(** A thrown [Error], or the reason of a rejected promise: the code reads
    its [message] only. *)
Record JsError := { message : string }.

(** The four messages thrown inside [parseCommand]. *)
Definition msg_parts : string := "Недостаточно параметров в команде".
Definition msg_direction : string :=
  "Неверное направление сделки. Используйте BUY или SELL".
Definition msg_leverage : string := "Неверное значение плеча".
Definition msg_quantity : string := "Неверное количество для ордера".

(** ** parseCommand *)

(** [parseFloat(param.split('=')[1])]; a missing element is [undefined],
    which [parseFloat] reads as [NaN]. *)
Definition valueAfterEquals (param : string) : Number :=
  match nth_error (split_char "=" param) 1 with
  | Some v => parseFloat v
  | None => NaN
  end.

(** One iteration of the loop over [parts[4..]]. *)
Definition applyParam (tp : TradeParams) (param : string) : TradeParams :=
  if startsWith param "SL=" then
    let slValue := valueAfterEquals param in
    if negb (isNaN slValue) then set_stopLoss slValue tp else tp
  else if startsWith param "TP=" then
    let tpValue := valueAfterEquals param in
    if negb (isNaN tpValue) then set_takeProfit tpValue tp else tp
  else if String.eqb (toUpperCase param) "HOLD" then set_hold tp
  else tp.

(** The test [isNaN(quantity) || quantity <= 0]. *)
Definition quantityRejected (q : Number) : bool := isNaN q || lessEq q zero.

(** The body of the [try] block of [parseCommand]: the error thrown, or
    the value returned. The pattern on [parts] is the test
    [parts.length < 4] together with the reads of [parts[0..3]]. *)
Definition parseCommand_try (command : string) : JsError + TradeParams :=
  match split_ws (trim command) with
  | p0 :: p1 :: p2 :: p3 :: rest =>
      let direction := toUpperCase p0 in
      let symbol := toUpperCase p1 in
      let leverageStr := p2 in
      let quantity := parseFloat p3 in
      if negb (String.eqb direction "BUY" || String.eqb direction "SELL") then
        inl {| message := msg_direction |}
      else
        match parseInt (remove_first "x" leverageStr) with
        | None => inl {| message := msg_leverage |}
        | Some leverage =>
            if (leverage <? 1) || (leverage >? 125) then
              inl {| message := msg_leverage |}
            else if quantityRejected quantity then
              inl {| message := msg_quantity |}
            else
              let tradeParams :=
                {| side := if String.eqb direction "BUY" then LONG else SHORT;
                   symbol := symbol;
                   leverage := leverage;
                   quantity := quantity;
                   stopLoss := None;
                   takeProfit := None;
                   hold := false |} in
              inr (fold_left applyParam rest tradeParams)
        end
  | _ => inl {| message := msg_parts |}
  end.

(** ** The exchange client, the console and the effects of a call *)

(** The object passed to [client.futuresOrder]. [quantity] and [stopPrice]
    are sent as [toString()] of a Number; the record keeps the Number that
    is printed. *)
Record OrderRequest := {
  req_symbol : string;
  req_side : OrderSide;
  req_type : OrderType;
  req_quantity : Number;
  req_stopPrice : option Number;
  req_timeInForce : option string
}.

(** A request sent to the exchange client. *)
Inductive Request :=
| FuturesLeverage (symbol : string) (leverage : Z)
| FuturesOrder (o : OrderRequest).

(** The order object the exchange answers with; the code reads [orderId]. *)
Record Order := { orderId : Z }.

(** [this.client]: each answer may depend on the requests received
    before, and is either a value or a rejection. *)
Record Client := {
  futuresLeverage : list Request -> string -> Z -> JsError + unit;
  futuresOrder : list Request -> OrderRequest -> JsError + Order
}.

(** The pieces of a console line, in order: literal text, and the values
    printed between. *)
Inductive Piece :=
| Str (s : string)
| Int (z : Z)
| Num (x : Number)
| Side (s : PositionSide)
| Obj (tp : TradeParams).

Inductive ConsoleLine :=
| console_log (ps : list Piece)
| console_error (ps : list Piece).

Record World := {
  requests : list Request;
  console : list ConsoleLine
}.

(** A computation: the world after it, and the error thrown or the value
    returned. *)
Definition Js (A : Type) : Type := World -> World * (JsError + A).

Definition ret {A} (a : A) : Js A := fun w => (w, inr a).

Definition throw {A} (e : JsError) : Js A := fun w => (w, inl e).

Definition bind {A B} (m : Js A) (k : A -> Js B) : Js B :=
  fun w =>
    match m w with
    | (w', inr a) => k a w'
    | (w', inl e) => (w', inl e)
    end.

(** [try { m } catch (error) { h error }] *)
Definition tryCatch {A} (m : Js A) (h : JsError -> Js A) : Js A :=
  fun w =>
    match m w with
    | (w', inr a) => (w', inr a)
    | (w', inl e) => h e w'
    end.

Declare Scope js_scope.
Delimit Scope js_scope with js.
Notation "x <- m ;; k" := (bind m (fun x => k))
  (at level 61, m at next level, right associativity) : js_scope.
Notation "m ;; k" := (bind m (fun _ => k))
  (at level 61, right associativity) : js_scope.
Local Open Scope js_scope.

Definition log (ps : list Piece) : Js unit :=
  fun w => ({| requests := requests w;
               console := console w ++ [console_log ps] |}, inr tt).

Definition logError (ps : list Piece) : Js unit :=
  fun w => ({| requests := requests w;
               console := console w ++ [console_error ps] |}, inr tt).

(** [await this.client.futuresLeverage({symbol, leverage})] *)
Definition callFuturesLeverage (client : Client) (symbol : string)
  (leverage : Z) : Js unit :=
  fun w => ({| requests := requests w ++ [FuturesLeverage symbol leverage];
               console := console w |},
            futuresLeverage client (requests w) symbol leverage).

(** [await this.client.futuresOrder(o)] *)
Definition callFuturesOrder (client : Client) (o : OrderRequest) : Js Order :=
  fun w => ({| requests := requests w ++ [FuturesOrder o];
               console := console w |},
            futuresOrder client (requests w) o).

Definition LF : string := String (ascii_of_nat 10) EmptyString.
Definition DQUOTE : string := String (ascii_of_nat 34) EmptyString.

(** ** parseCommand, with its [catch] *)

Definition parseCommand (command : string) : Js (option TradeParams) :=
  match parseCommand_try command with
  | inr tradeParams => ret (Some tradeParams)
  | inl error =>
      logError [Str "Ошибка: неверный формат команды -"; Str (message error)] ;;
      ret None
  end.

(** ** The orchestration methods *)

Section Orchestration.

Variable client : Client.

Definition setLeverage (symbol : string) (leverage : Z) : Js unit :=
  tryCatch
    (callFuturesLeverage client symbol leverage ;;
     log [Str "✅ Плечо "; Int leverage; Str "x установлено для "; Str symbol])
    (fun error =>
       logError [Str "❌ Ошибка установки плеча для "; Str symbol; Str ":";
                 Str (message error)] ;;
       throw error).

(** The request of the entry order. *)
Definition marketRequest (tradeParams : TradeParams) : OrderRequest :=
  {| req_symbol := symbol tradeParams;
     req_side := match side tradeParams with LONG => BUY | SHORT => SELL end;
     req_type := MARKET;
     req_quantity := quantity tradeParams;
     req_stopPrice := None;
     req_timeInForce := None |}.

Definition placeMarketOrder (tradeParams : TradeParams) : Js Order :=
  tryCatch
    (let symbol := symbol tradeParams in
     let side := side tradeParams in
     let quantity := quantity tradeParams in
     let leverage := leverage tradeParams in
     setLeverage symbol leverage ;;
     order <- callFuturesOrder client (marketRequest tradeParams) ;;
     log [Str "✅ Рыночный ордер размещен:"] ;;
     log [Str "   Символ: "; Str symbol] ;;
     log [Str "   Направление: "; Side side] ;;
     log [Str "   Количество: "; Num quantity] ;;
     log [Str "   Плечо: "; Int leverage; Str "x"] ;;
     log [Str "   Order ID: "; Int (orderId order)] ;;
     ret order)
    (fun error =>
       logError [Str "❌ Ошибка размещения рыночного ордера:";
                 Str (message error)] ;;
       throw error).

(** The request of a conditional order of type [type]. *)
Definition conditionalRequest (type : OrderType) (symbol : string)
  (side : OrderSide) (quantity price : Number) : OrderRequest :=
  {| req_symbol := symbol;
     req_side := side;
     req_type := type;
     req_quantity := quantity;
     req_stopPrice := Some price;
     req_timeInForce := Some "GTC" |}.

Definition placeStopLossOrder (symbol : string) (side : OrderSide)
  (quantity stopPrice : Number) : Js Order :=
  tryCatch
    (order <- callFuturesOrder client
                (conditionalRequest STOP_MARKET symbol side quantity stopPrice) ;;
     log [Str "✅ Стоп-лосс ордер размещен по цене "; Num stopPrice] ;;
     ret order)
    (fun error =>
       logError [Str "❌ Ошибка размещения стоп-лосс ордера:";
                 Str (message error)] ;;
       throw error).

Definition placeTakeProfitOrder (symbol : string) (side : OrderSide)
  (quantity takeProfitPrice : Number) : Js Order :=
  tryCatch
    (order <- callFuturesOrder client
                (conditionalRequest TAKE_PROFIT_MARKET symbol side quantity
                   takeProfitPrice) ;;
     log [Str "✅ Тейк-профит ордер размещен по цене "; Num takeProfitPrice] ;;
     ret order)
    (fun error =>
       logError [Str "❌ Ошибка размещения тейк-профит ордера:";
                 Str (message error)] ;;
       throw error).

(** The price of [if (stopLoss)] and [if (takeProfit)] when the test
    passes: [null], [0], [-0] and [NaN] are falsy. *)
Definition whenTruthy (price : option Number) : option Number :=
  match price with
  | Some v => if truthy v then Some v else None
  | None => None
  end.

Definition executeTrade (tradeParams : TradeParams) : Js Order :=
  tryCatch
    (log [Str (LF ++ "🚀 Начинаем выполнение торговой операции...")] ;;
     log [Str "Параметры:"; Obj tradeParams] ;;
     mainOrder <- placeMarketOrder tradeParams ;;
     (if negb (hold tradeParams) then
        let symbol := symbol tradeParams in
        let side := side tradeParams in
        let quantity := quantity tradeParams in
        let stopLoss := stopLoss tradeParams in
        let takeProfit := takeProfit tradeParams in
        let closeSide := match side with LONG => SELL | SHORT => BUY end in
        match whenTruthy stopLoss with
        | Some stopLoss =>
            placeStopLossOrder symbol closeSide quantity stopLoss ;; ret tt
        | None => ret tt
        end ;;
        match whenTruthy takeProfit with
        | Some takeProfit =>
            placeTakeProfitOrder symbol closeSide quantity takeProfit ;; ret tt
        | None => ret tt
        end
      else
        log [Str "📋 Режим HOLD активен - дополнительные ордера не размещаются"]) ;;
     log [Str ("✅ Торговая операция успешно выполнена!" ++ LF)] ;;
     ret mainOrder)
    (fun error =>
       logError [Str "❌ Ошибка выполнения торговой операции:";
                 Str (message error)] ;;
       throw error).

Definition processCommand (command : string) : Js bool :=
  log [Str (LF ++ "📨 Получена команда: " ++ DQUOTE); Str command; Str DQUOTE] ;;
  tradeParams <- parseCommand command ;;
  match tradeParams with
  | None => ret false
  | Some tradeParams =>
      tryCatch
        (executeTrade tradeParams ;; ret true)
        (fun error =>
           logError [Str "❌ Не удалось выполнить торговую операцию:";
                     Str (message error)] ;;
           ret false)
  end.

End Orchestration.

(** ** Runs: requests issued and result *)

Local Open Scope list_scope.

(** The requests a computation sends from the world [w], and what it
    returns or throws there. *)
Definition issued {A} (m : Js A) (w : World) : list Request :=
  skipn (List.length (requests w)) (requests (fst (m w))).

Definition result {A} (m : Js A) (w : World) : JsError + A := snd (m w).

Definition emptyWorld : World := {| requests := []; console := [] |}.

Definition leverageRequest (tp : TradeParams) : Request :=
  FuturesLeverage (symbol tp) (leverage tp).

Definition entryRequest (tp : TradeParams) : Request :=
  FuturesOrder (marketRequest tp).

(** [closeSide] of [executeTrade]. *)
Definition closingSide (s : PositionSide) : OrderSide :=
  match s with LONG => SELL | SHORT => BUY end.

(** [orderSide] of [placeMarketOrder]. *)
Definition entrySide (s : PositionSide) : OrderSide :=
  match s with LONG => BUY | SHORT => SELL end.

Definition stopLossOrder (tp : TradeParams) (price : Number) : OrderRequest :=
  conditionalRequest STOP_MARKET (symbol tp) (closingSide (side tp))
    (quantity tp) price.

Definition takeProfitOrder (tp : TradeParams) (price : Number)
  : OrderRequest :=
  conditionalRequest TAKE_PROFIT_MARKET (symbol tp) (closingSide (side tp))
    (quantity tp) price.

Definition stopLossRequest (tp : TradeParams) (price : Number) : Request :=
  FuturesOrder (stopLossOrder tp price).

Definition takeProfitRequest (tp : TradeParams) (price : Number) : Request :=
  FuturesOrder (takeProfitOrder tp price).

Definition isLeverageCall (r : Request) : bool :=
  match r with FuturesLeverage _ _ => true | FuturesOrder _ => false end.

Definition isOrderCall (r : Request) : bool :=
  match r with FuturesLeverage _ _ => false | FuturesOrder _ => true end.

Definition isMarketCall (r : Request) : bool :=
  match r with
  | FuturesOrder o => match req_type o with MARKET => true | _ => false end
  | FuturesLeverage _ _ => false
  end.

Definition isStopLossCall (r : Request) : bool :=
  match r with
  | FuturesOrder o => match req_type o with STOP_MARKET => true | _ => false end
  | FuturesLeverage _ _ => false
  end.

Definition isTakeProfitCall (r : Request) : bool :=
  match r with
  | FuturesOrder o =>
      match req_type o with TAKE_PROFIT_MARKET => true | _ => false end
  | FuturesLeverage _ _ => false
  end.

Definition isConditionalCall (r : Request) : bool :=
  isStopLossCall r || isTakeProfitCall r.

Definition count (p : Request -> bool) (l : list Request) : nat :=
  List.length (filter p l).

Definition rejected {A} (r : JsError + A) : bool :=
  match r with inl _ => true | inr _ => false end.

Section Runs.

Variable client : Client.

(** One optional conditional order, console erased: the request sent
    after the history [h], when the price passes the truthiness test, and
    whether it was rejected. *)
Definition conditionalRun (type : OrderType) (tp : TradeParams)
  (price : option Number) (h : list Request)
  : list Request * (JsError + unit) :=
  match whenTruthy price with
  | None => ([], inr tt)
  | Some v =>
      let o := conditionalRequest type (symbol tp) (closingSide (side tp))
                 (quantity tp) v in
      ([FuturesOrder o],
       match futuresOrder client h o with
       | inl e => inl e
       | inr _ => inr tt
       end)
  end.

(** [executeTrade] with the console erased: the requests sent after the
    history [h] and the result. [executeTrade_run] proves that this is
    what [executeTrade] does. *)
Definition tradeRun (tp : TradeParams) (h : list Request)
  : list Request * (JsError + Order) :=
  let lev := leverageRequest tp in
  let entry := entryRequest tp in
  match futuresLeverage client h (symbol tp) (leverage tp) with
  | inl e => ([lev], inl e)
  | inr _ =>
      match futuresOrder client (h ++ [lev]) (marketRequest tp) with
      | inl e => ([lev; entry], inl e)
      | inr mainOrder =>
          if hold tp then ([lev; entry], inr mainOrder)
          else
            let (sl, r1) :=
              conditionalRun STOP_MARKET tp (stopLoss tp)
                (h ++ [lev; entry]) in
            match r1 with
            | inl e => (lev :: entry :: sl, inl e)
            | inr _ =>
                let (tk, r2) :=
                  conditionalRun TAKE_PROFIT_MARKET tp (takeProfit tp)
                    (h ++ lev :: entry :: sl) in
                (lev :: entry :: sl ++ tk,
                 match r2 with
                 | inl e => inl e
                 | inr _ => inr mainOrder
                 end)
            end
      end
  end.

End Runs.

(** ** Example clients and parameters *)

(** An exchange that rejects the requests selected by [reject] with the
    message [msg] and numbers the orders it accepts with [ids]. *)
Definition exchange (reject : Request -> bool) (msg : string)
  (ids : OrderRequest -> Z) : Client :=
  {| futuresLeverage := fun _ symbol leverage =>
       if reject (FuturesLeverage symbol leverage)
       then inl {| message := msg |} else inr tt;
     futuresOrder := fun _ o =>
       if reject (FuturesOrder o)
       then inl {| message := msg |} else inr {| orderId := ids o |} |}.

Definition idsFrom (base : Z) (o : OrderRequest) : Z :=
  match req_type o with
  | MARKET => 1
  | STOP_MARKET => base + 1
  | TAKE_PROFIT_MARKET => base + 2
  end.

Definition acceptAll : Client := exchange (fun _ => false) "" (idsFrom 1).

(** [parseCommand("BUY BTCUSDT 20x 0.01 SL=42000 TP=45000")] *)
Definition longParams : TradeParams :=
  {| side := LONG; symbol := "BTCUSDT"; leverage := 20;
     quantity := S754_finite false 5764607523034235 (-59);
     stopLoss := Some (S754_finite false 5772436045824000 (-37));
     takeProfit := Some (S754_finite false 6184752906240000 (-37));
     hold := false |}.

(** [parseCommand("SELL ETHUSDT 10x 0.1 SL=100 TP=200 HOLD")] *)
Definition holdParams : TradeParams :=
  {| side := SHORT; symbol := "ETHUSDT"; leverage := 10;
     quantity := S754_finite false 7205759403792794 (-56);
     stopLoss := Some (S754_finite false 7036874417766400 (-46));
     takeProfit := Some (S754_finite false 7036874417766400 (-45));
     hold := true |}.

(** An exchange that accepts everything but stop-loss orders. *)
Definition stopLossRejecting : Client :=
  exchange isStopLossCall "Order would immediately trigger." (idsFrom 1).

(** The same exchange as [acceptAll], with other identifiers for the
    conditional orders. *)
Definition acceptAllFrom6 : Client := exchange (fun _ => false) "" (idsFrom 6).

Definition leverageRejecting : Client :=
  exchange isLeverageCall "Leverage is not valid." (idsFrom 1).

Definition entryRejecting : Client :=
  exchange isMarketCall "Margin is insufficient." (idsFrom 1).

Definition opposite (s : OrderSide) : OrderSide :=
  match s with BUY => SELL | SELL => BUY end.

(** ** The tests of [parseCommand], named *)

(** [['BUY', 'SELL'].includes(parts[0].toUpperCase())] *)
Definition validDirection (p0 : string) : bool :=
  String.eqb (toUpperCase p0) "BUY" || String.eqb (toUpperCase p0) "SELL".

(** [parseInt(leverageStr.replace('x', ''))] *)
Definition leverageOf (p2 : string) : option Z :=
  parseInt (remove_first "x" p2).

(** [isNaN(leverage) || leverage < 1 || leverage > 125] *)
Definition leverageRejected (lev : option Z) : bool :=
  match lev with
  | None => true
  | Some n => (n <? 1) || (n >? 125)
  end.

(** The object [tradeParams] before the loop over the optional tokens. *)
Definition requiredParams (p0 p1 : string) (lev : Z) (q : Number)
  : TradeParams :=
  {| side := if String.eqb (toUpperCase p0) "BUY" then LONG else SHORT;
     symbol := toUpperCase p1;
     leverage := lev;
     quantity := q;
     stopLoss := None;
     takeProfit := None;
     hold := false |}.

Fixpoint allDigits (s : string) : bool :=
  match s with
  | EmptyString => true
  | String c s' => isDigit c && allDigits s'
  end.

(** The pattern the specification gives for token 3: one or more digits
    followed by [x] or [X], and nothing else. *)
Definition matchesLeverageGrammar (tok : string) : bool :=
  match rev tok with
  | String c ds =>
      (Ascii.eqb c "x" || Ascii.eqb c "X")
      && allDigits ds
      && negb (String.eqb ds EmptyString)
  | EmptyString => false
  end.

(** The pattern the specification gives for token 4, a decimal: digits
    with an optional fraction, or a fraction alone, and nothing else. *)
Definition matchesDecimalGrammar (tok : string) : bool :=
  let (ip, r) := span isDigit tok in
  match r with
  | EmptyString => negb (String.eqb ip EmptyString)
  | String c fp =>
      Ascii.eqb c "." && allDigits fp
      && negb (String.eqb ip EmptyString && String.eqb fp EmptyString)
  end.

(** The line [parseCommand] writes in its [catch]. *)
Definition parseErrorLine (error : JsError) : ConsoleLine :=
  console_error [Str "Ошибка: неверный формат команды -"; Str (message error)].

(** [parseCommand("BUY BTCUSDT 5x 1 SL=0")] and
    [parseCommand("BUY BTCUSDT 5x 1 TP=0")] *)
Definition zeroStopParams : TradeParams :=
  {| side := LONG; symbol := "BTCUSDT"; leverage := 5;
     quantity := S754_finite false 4503599627370496 (-52);
     stopLoss := Some zero; takeProfit := None; hold := false |}.

Definition zeroTakeParams : TradeParams :=
  {| side := LONG; symbol := "BTCUSDT"; leverage := 5;
     quantity := S754_finite false 4503599627370496 (-52);
     stopLoss := None; takeProfit := Some zero; hold := false |}.

(** ** Commands as sequences of tokens *)

(** Every character of [s] is white space. *)
Fixpoint allWhite (s : string) : bool :=
  match s with
  | EmptyString => true
  | String c s' => isWhiteSpace c && allWhite s'
  end.




(** The token is [HOLD] in some letter case. *)
Definition isHoldToken (param : string) : bool :=
  String.eqb (toUpperCase param) "HOLD".

(** The text begins with a character that is not white space. *)
Definition startsClean (s : string) : bool :=
  match s with
  | String c _ => negb (isWhiteSpace c)
  | EmptyString => false
  end.

(** The text has no [=]. *)
Fixpoint noEquals (s : string) : bool :=
  match s with
  | EmptyString => true
  | String c s' => negb (Ascii.eqb c "=") && noEquals s'
  end.

(** The token leaves [stopLoss] as it is: it is not an [SL=] token, or
    its value does not parse. *)
Definition keepsStopLoss (param : string) : bool :=
  negb (startsWith param "SL=") || isNaN (valueAfterEquals param).

(** The token leaves [takeProfit] as it is. *)
Definition keepsTakeProfit (param : string) : bool :=
  negb (startsWith param "TP=") || isNaN (valueAfterEquals param).

(** [n] lies in 1..125. *)
Definition inLeverageRange (n : Z) : bool := (1 <=? n) && (n <=? 125).

(** The stored price, when there is one, is not [NaN]. *)
Definition priceIsNumber (price : option Number) : bool :=
  match price with
  | Some v => negb (isNaN v)
  | None => true
  end.

(** ** The plan of a run *)

(** The conditional order of a price that passes [if (price)]. *)
Definition optionalRequest (mk : Number -> Request) (price : option Number)
  : list Request :=
  match whenTruthy price with
  | Some v => [mk v]
  | None => []
  end.

(** The requests of a run in which nothing is rejected, in order. *)
Definition plan (tp : TradeParams) : list Request :=
  leverageRequest tp :: entryRequest tp
  :: (if hold tp then []
      else optionalRequest (stopLossRequest tp) (stopLoss tp)
           ++ optionalRequest (takeProfitRequest tp) (takeProfit tp)).

(** Whether the client accepts the request [r] after the requests [h]. *)
Definition answer (client : Client) (h : list Request) (r : Request)
  : JsError + unit :=
  match r with
  | FuturesLeverage symbol leverage => futuresLeverage client h symbol leverage
  | FuturesOrder o =>
      match futuresOrder client h o with
      | inl e => inl e
      | inr _ => inr tt
      end
  end.

(** Sending the requests of [l] one after the other after [h], up to the
    first rejection: the requests sent, and the rejection if any. *)
Fixpoint sendUntilRejected (client : Client) (h : list Request)
  (l : list Request) : list Request * option JsError :=
  match l with
  | [] => ([], None)
  | r :: l' =>
      match answer client h r with
      | inl e => ([r], Some e)
      | inr _ =>
          let (sent, rejection) := sendUntilRejected client (h ++ [r]) l' in
          (r :: sent, rejection)
      end
  end.

Definition isErrorLine (line : ConsoleLine) : bool :=
  match line with
  | console_error _ => true
  | console_log _ => false
  end.

(** The console lines a computation writes from the world [w]. *)
Definition written {A} (m : Js A) (w : World) : list ConsoleLine :=
  skipn (List.length (console w)) (console (fst (m w))).

(** The line [executeTrade] writes in its [catch]. *)
Definition tradeErrorLine (error : JsError) : ConsoleLine :=
  console_error [Str "❌ Ошибка выполнения торговой операции:";
                 Str (message error)].

(** The pieces of a console line. *)
Definition pieces (line : ConsoleLine) : list Piece :=
  match line with
  | console_log ps => ps
  | console_error ps => ps
  end.

(** ** The read methods *)

(** An element of the answer of [client.futuresPositionRisk()]: the code
    reads these three fields, which the exchange sends as text. *)
Record Position := {
  pos_symbol : string;
  positionAmt : string;
  unRealizedProfit : string
}.

(** The answer of [client.futuresAccountInfo()]: the two fields read. *)
Record AccountInfo := {
  totalWalletBalance : string;
  availableBalance : string
}.

(** What the exchange answers to the three read endpoints when they are
    called: a value or a rejection. The answer of [futuresPrices] is an
    object from symbols to price texts; a symbol without an entry reads
    as [undefined]. *)
Record Readings := {
  futuresPrices : string -> JsError + (string -> option string);
  futuresAccountInfo : JsError + AccountInfo;
  futuresPositionRisk : JsError + list Position
}.

(** [await] of an answer already received. *)
Definition await {A} (answer : JsError + A) : Js A := fun w => (w, answer).

(** [x !== 0] on a Number: false for [+0] and [-0] only. *)
Definition notZero (x : Number) : bool :=
  match x with
  | S754_zero _ => false
  | _ => true
  end.

(** [parseFloat(undefined)] is [NaN]. *)
Definition parseFloatOpt (text : option string) : Number :=
  match text with
  | Some s => parseFloat s
  | None => NaN
  end.

(** [positions.forEach(pos => console.log(...))] *)
Fixpoint logEach (positions : list Position) : Js unit :=
  match positions with
  | [] => ret tt
  | pos :: rest =>
      log [Str (pos_symbol pos); Str ": "; Str (positionAmt pos);
           Str " (PnL: "; Str (unRealizedProfit pos); Str " USDT)"] ;;
      logEach rest
  end.

Section ReadMethods.

Variable readings : Readings.

Definition getCurrentPrice (symbol : string) : Js Number :=
  tryCatch
    (ticker <- await (futuresPrices readings symbol) ;;
     ret (parseFloatOpt (ticker symbol)))
    (fun error =>
       logError [Str "❌ Ошибка получения цены для "; Str symbol; Str ":";
                 Str (message error)] ;;
       throw error).

Definition getAccountInfo : Js AccountInfo :=
  tryCatch
    (accountInfo <- await (futuresAccountInfo readings) ;;
     log [Str (LF ++ "💰 Информация об аккаунте:")] ;;
     log [Str "Общий баланс: "; Str (totalWalletBalance accountInfo);
          Str " USDT"] ;;
     log [Str "Доступный баланс: "; Str (availableBalance accountInfo);
          Str " USDT"] ;;
     ret accountInfo)
    (fun error =>
       logError [Str "❌ Ошибка получения информации об аккаунте:";
                 Str (message error)] ;;
       throw error).

Definition getOpenPositions : Js (list Position) :=
  tryCatch
    (positions <- await (futuresPositionRisk readings) ;;
     let openPositions :=
       filter (fun pos => notZero (parseFloat (positionAmt pos))) positions in
     log [Str (LF ++ "📊 Открытые позиции:")] ;;
     (if Nat.eqb (List.length openPositions) 0
      then log [Str "Нет открытых позиций"]
      else logEach openPositions) ;;
     ret openPositions)
    (fun error =>
       logError [Str "❌ Ошибка получения открытых позиций:";
                 Str (message error)] ;;
       throw error).

End ReadMethods.

(** Every character of [s] is the digit 0. *)
Fixpoint allZeros (s : string) : bool :=
  match s with
  | EmptyString => true
  | String c s' => Ascii.eqb c "0" && allZeros s'
  end.

(** The amount is written as zero: an optional sign, one or more digits
    0, and an optional fraction of digits 0. *)
Definition isZeroText (s : string) : bool :=
  let (_, body) := takeSign s in
  let (ip, r) := span (fun c => Ascii.eqb c "0") body in
  negb (String.eqb ip EmptyString)
  && match r with
     | EmptyString => true
     | String c fp => Ascii.eqb c "." && allZeros fp
     end.

(** The console line of one open position. *)
Definition positionLine (pos : Position) : ConsoleLine :=
  console_log [Str (pos_symbol pos); Str ": "; Str (positionAmt pos);
               Str " (PnL: "; Str (unRealizedProfit pos); Str " USDT)"].

(** Example answers of the read endpoints. *)
Definition examplePositions : list Position :=
  [ {| pos_symbol := "BTCUSDT"; positionAmt := "0.000";
       unRealizedProfit := "0.00000000" |};
    {| pos_symbol := "ETHUSDT"; positionAmt := "-0.5";
       unRealizedProfit := "1.25" |} ].

Definition exampleReadings : Readings :=
  {| futuresPrices := fun _ => inr (fun symbol =>
       if String.eqb symbol "BTCUSDT" then Some "42000.10" else None);
     futuresAccountInfo :=
       inr {| totalWalletBalance := "100.5"; availableBalance := "80.25" |};
     futuresPositionRisk := inr examplePositions |}.

Definition failingReadings : Readings :=
  {| futuresPrices := fun _ => inl {| message := "Invalid API-key." |};
     futuresAccountInfo := inl {| message := "Invalid API-key." |};
     futuresPositionRisk := inl {| message := "Invalid API-key." |} |}.

(** ** Number(text) and the chat restriction *)

(** The value [s] writes in radix [radix], [None] when some character is
    not a digit of that radix. *)
Fixpoint radixValue (radix : Z) (acc : Z) (s : string) : option Z :=
  match s with
  | EmptyString => Some acc
  | String c s' =>
      match hexValue c with
      | Some d =>
          if d <? radix then radixValue radix (radix * acc + d) s' else None
      | None => None
      end
  end.

(** The radix a second character [x], [o] or [b] announces after [0]. *)
Definition radixOf (c : ascii) : option Z :=
  if (Ascii.eqb c "x" || Ascii.eqb c "X")%bool then Some 16
  else if (Ascii.eqb c "o" || Ascii.eqb c "O")%bool then Some 8
  else if (Ascii.eqb c "b" || Ascii.eqb c "B")%bool then Some 2
  else None.

(** [ExponentPart], or nothing, up to the end of the text. *)
Definition exponentExact (s : string) : option Z :=
  match s with
  | EmptyString => Some 0
  | String c s1 =>
      if (Ascii.eqb c "e" || Ascii.eqb c "E")%bool then
        let (neg, ds) := takeSign s1 in
        if (allDigits ds && negb (String.eqb ds EmptyString))%bool
        then Some (if neg then - digitsValue 0 ds else digitsValue 0 ds)
        else None
      else None
  end.

(** A whole text read as [StrDecimalLiteral]; [NaN] when it is not one. *)
Definition decimalLiteral (t : string) : Number :=
  let (neg, s) := takeSign t in
  if String.eqb s "Infinity" then S754_infinity neg
  else
    let (ip, r1) := span isDigit s in
    let '(fp, r2) :=
      match r1 with
      | String c r => if Ascii.eqb c "." then span isDigit r
                      else (EmptyString, r1)
      | EmptyString => (EmptyString, r1)
      end in
    match ip, fp with
    | EmptyString, EmptyString => NaN
    | _, _ =>
        match exponentExact r2 with
        | Some e => ofDecimal neg (digitsValue 0 (ip ++ fp)) (e - strlen fp)
        | None => NaN
        end
    end.

(** [Number(text)]: white space around the text is dropped; the empty
    text is 0; the whole rest must be a binary, octal or hexadecimal
    integer literal or a decimal literal, and is [NaN] otherwise. *)
Definition toNumber (text : string) : Number :=
  let t := trim text in
  match t with
  | EmptyString => zero
  | String c0 rest =>
      match rest with
      | String c1 ds =>
          match (if Ascii.eqb c0 "0" then radixOf c1 else None) with
          | Some radix =>
              match ds with
              | EmptyString => NaN
              | _ =>
                  match radixValue radix 0 ds with
                  | Some n => ofDecimal false n 0
                  | None => NaN
                  end
              end
          | None => decimalLiteral t
          end
      | EmptyString => decimalLiteral t
      end
  end.

(** [x === y] on Numbers: [NaN] equals nothing, [+0] equals [-0]. *)
Definition strictEq (x y : Number) : bool := SFeqb x y.

(** [Number.isFinite] *)
Definition isFinite (x : Number) : bool :=
  match x with
  | S754_zero _ | S754_finite _ _ _ => true
  | _ => false
  end.

(** The chat identifier read from an environment variable, as the two
    entry scripts do for [TELEGRAM_ALLOWED_CHAT_ID] (and the later one for
    [TELEGRAM_FORUM_CHAT_ID_PROD]): [null] unless the variable is set, not
    blank and a number. *)
Definition chatIdOfEnv (value : option string) : option Number :=
  match value with
  | Some s =>
      if (negb (String.eqb s EmptyString)
          && negb (String.eqb (trim s) EmptyString))%bool
      then let parsed := toNumber s in
           if negb (isNaN parsed) then Some parsed else None
      else None
  | None => None
  end.

(** What a middleware does with an update. *)
Inductive Verdict := CallNext | ReplyDenied.

(** [!id] for an identifier that is [null] or a Number. *)
Definition idIsSet (id : option Number) : bool :=
  match id with
  | Some n => truthy n
  | None => false
  end.

(** [chatId === id], where [chatId] is [ctx.chat?.id]: a Number, or
    [undefined] for an update without chat. *)
Definition sameChat (chatId id : option Number) : bool :=
  match chatId, id with
  | Some c, Some n => strictEq c n
  | _, _ => false
  end.

(** The access middleware of the first entry script. *)
Definition restrictAccess (allowedChatId chatId : option Number) : Verdict :=
  if negb (idIsSet allowedChatId) then CallNext
  else if sameChat chatId allowedChatId then CallNext
  else ReplyDenied.

(** ** The chat handlers of the entry script *)

(** The state a handler acts on: the world of the trading methods and
    the replies sent to the chat, oldest first. *)
Record Chat := {
  chat_world : World;
  replies : list string
}.

Definition Bot (A : Type) : Type := Chat -> Chat * (JsError + A).

Definition botRet {A} (a : A) : Bot A := fun c => (c, inr a).

Definition botBind {A B} (m : Bot A) (k : A -> Bot B) : Bot B :=
  fun c =>
    match m c with
    | (c', inr a) => k a c'
    | (c', inl e) => (c', inl e)
    end.

Definition botTry {A} (m : Bot A) (h : JsError -> Bot A) : Bot A :=
  fun c =>
    match m c with
    | (c', inr a) => (c', inr a)
    | (c', inl e) => h e c'
    end.

(** A method of [TradingBot] called from a handler. *)
Definition liftJs {A} (m : Js A) : Bot A :=
  fun c =>
    let (w', r) := m (chat_world c) in
    ({| chat_world := w'; replies := replies c |}, r).

Definition emptyChat : Chat := {| chat_world := emptyWorld; replies := [] |}.

Section Handlers.

Variable client : Client.
Variable readings : Readings.

(** [ctx.reply]: whether Telegram accepts the reply [text] after the
    replies already sent. *)
Variable telegram : list string -> string -> JsError + unit.

(** [String(err)], which the template literal prints for an error whose
    [message] is empty. *)
Variable describe : JsError -> string.

(** [await ctx.reply(text)] *)
Definition reply (text : string) : Bot unit :=
  fun c => ({| chat_world := chat_world c; replies := replies c ++ [text] |},
            telegram (replies c) text).

(** [err?.message || err], as text. *)
Definition errorText (err : JsError) : string :=
  if String.eqb (message err) EmptyString then describe err else message err.

(** [bot.on('text', ...)], on [ctx.message.text]. *)
Definition onText (messageText : string) : Bot unit :=
  let text := trim messageText in
  if startsWith text "/" then botRet tt
  else
    botBind (reply "⏳ Обрабатываю команду...") (fun _ =>
    botTry
      (botBind (liftJs (processCommand client text)) (fun ok =>
       if ok : bool then reply "✅ Команда выполнена"
       else reply "❌ Неверный формат команды. Проверьте синтаксис."))
      (fun err =>
         reply ("❌ Ошибка выполнения команды: " ++ errorText err))).

(** The lines of the reply to [/positions]. *)
Definition positionReplyLine (p : Position) : string :=
  pos_symbol p ++ ": " ++ positionAmt p ++ " (PnL: " ++ unRealizedProfit p
  ++ " USDT)".

(** [lines.join('\n')] *)
Fixpoint joinLines (lines : list string) : string :=
  match lines with
  | [] => EmptyString
  | [l] => l
  | l :: rest => l ++ LF ++ joinLines rest
  end.

(** [bot.command('positions', ...)]. The reply for no open position is
    sent by [return ctx.reply(...)], which the [try] does not await: its
    rejection is not caught, so that reply is placed after the [try]. *)
Definition onPositions : Bot unit :=
  botBind
    (botTry
       (botBind (liftJs (getOpenPositions readings)) (fun positions =>
        if Nat.eqb (List.length positions) 0
        then botRet true
        else botBind
               (reply (joinLines ("📊 Открытые позиции:"
                                  :: map positionReplyLine positions)))
               (fun _ => botRet false)))
       (fun err =>
          botBind (reply ("❌ Ошибка получения позиций: " ++ errorText err))
            (fun _ => botRet false)))
    (fun noneOpen =>
       if noneOpen : bool then reply "📊 Нет открытых позиций" else botRet tt).

(** [bot.command('balance', ...)] *)
Definition onBalance : Bot unit :=
  botTry
    (botBind (liftJs (getAccountInfo readings)) (fun info =>
     reply ("💰 Баланс" ++ LF
            ++ "Общий: " ++ totalWalletBalance info ++ " USDT" ++ LF
            ++ "Доступный: " ++ availableBalance info ++ " USDT")))
    (fun err => reply ("❌ Ошибка получения баланса: " ++ errorText err)).

End Handlers.

(** Telegram accepting every reply. *)
Definition telegramAccepts : list string -> string -> JsError + unit :=
  fun _ _ => inr tt.

(** The requests a handler sends to the exchange from the chat state [c],
    the replies it sends, and how it ends. *)
Definition botIssued {A} (m : Bot A) (c : Chat) : list Request :=
  skipn (List.length (requests (chat_world c)))
    (requests (chat_world (fst (m c)))).

Definition botReplies {A} (m : Bot A) (c : Chat) : list string :=
  skipn (List.length (replies c)) (replies (fst (m c))).

Definition botResult {A} (m : Bot A) (c : Chat) : JsError + A := snd (m c).

(** The replies of the handlers, named. *)
Definition ackText : string := "⏳ Обрабатываю команду...".
Definition doneText : string := "✅ Команда выполнена".
Definition badFormatText : string :=
  "❌ Неверный формат команды. Проверьте синтаксис.".

Definition verdictText (ok : bool) : string :=
  if ok then doneText else badFormatText.

Definition commandErrorText (describe : JsError -> string) (err : JsError)
  : string :=
  "❌ Ошибка выполнения команды: " ++ errorText describe err.

Definition positionsText (positions : list Position) : string :=
  match positions with
  | [] => "📊 Нет открытых позиций"
  | _ :: _ =>
      joinLines ("📊 Открытые позиции:" :: map positionReplyLine positions)
  end.

Definition balanceText (info : AccountInfo) : string :=
  "💰 Баланс" ++ LF
  ++ "Общий: " ++ totalWalletBalance info ++ " USDT" ++ LF
  ++ "Доступный: " ++ availableBalance info ++ " USDT".

(** Telegram rejecting the replies selected by [reject]. *)
Definition telegramRejects (reject : string -> bool) (msg : string)
  : list string -> string -> JsError + unit :=
  fun _ text => if reject text then inl {| message := msg |} else inr tt.

(** ** The forum watcher *)

(** [num(envVal)]: [null] for a variable that is unset or blank, or that
    does not read as a finite Number. *)
Definition num (envVal : option string) : option Number :=
  match envVal with
  | None => None
  | Some s =>
      if String.eqb (trim s) EmptyString then None
      else let n := toNumber s in
           if isFinite n then Some n else None
  end.

Record Topic := {
  topic_id : Number;
  topic_name : string;
  isCrypto : bool
}.

(** The calls of [push] in [buildTopicsFromEnv], in order: the variable
    read, the name and the flag. *)
Definition topicTable : list (string * string * bool) :=
  [ ("TELEGRAM_TOPIC_BTC_ID_PROD", "Bitcoin (BTC)", true);
    ("TELEGRAM_TOPIC_ASTER_ID_PROD", "Aster (ASTER)", true);
    ("TELEGRAM_TOPIC_NEWS_ID_PROD", "News", false);
    ("TELEGRAM_TOPIC_SOLANA_ID_PROD", "Solana (SOL)", true);
    ("TELEGRAM_TOPIC_CHAT_ID_PROD", "Chat", false);
    ("TELEGRAM_TOPIC_TETHER_GOLD_ID_PROD", "Tether Gold (XAUT)", true);
    ("TELEGRAM_TOPIC_LITECOIN_ID_PROD", "Litecoin (LTC)", true);
    ("TELEGRAM_TOPIC_SUI_ID_PROD", "Sui (SUI)", true);
    ("TELEGRAM_TOPIC_RIPPLE_ID_PROD", "Ripple (XRP)", true);
    ("TELEGRAM_TOPIC_BINANCE_ID_PROD", "BNB (BNB)", true);
    ("TELEGRAM_TOPIC_ETHEREUM_ID_PROD", "Ethereum (ETH)", true);
    ("TELEGRAM_TOPIC_TON_ID_PROD", "Toncoin (TON)", true) ].

(** [push(id, name, isCrypto)] on the topics built so far. *)
Definition pushTopic (topics : list Topic) (id : option string)
  (name : string) (crypto : bool) : list Topic :=
  match num id with
  | Some n => topics ++ [{| topic_id := n; topic_name := name;
                            isCrypto := crypto |}]
  | None => topics
  end.

(** [buildTopicsFromEnv()], with [process.env] as [env]. *)
Definition buildTopicsFromEnv (env : string -> option string) : list Topic :=
  fold_left (fun topics '(variable, name, crypto) =>
               pushTopic topics (env variable) name crypto)
    topicTable [].

(** Equality of the keys of a [Map] or [Set]: that of [===], and [NaN]
    equals [NaN]. *)
Definition sameValueZero (x y : Number) : bool :=
  strictEq x y || (isNaN x && isNaN y).

(** [cryptoTopicIds.has(threadId)] *)
Definition isCryptoThread (topics : list Topic) (threadId : Number) : bool :=
  existsb (fun t => isCrypto t && sameValueZero (topic_id t) threadId) topics.

(** [topicById.get(threadId)]: of two topics with the same id, the [Map]
    keeps the later one. *)
Definition topicById (topics : list Topic) (threadId : Number)
  : option Topic :=
  find (fun t => sameValueZero (topic_id t) threadId) (List.rev topics).

(** The test at the head of the four handlers of [initForumWatcher]:
    whether an update of chat [chatId] and thread [threadId] is handled.
    Both are [undefined] when the update lacks them. *)
Definition watches (forumChatId : Number) (topics : list Topic)
  (chatId threadId : option Number) : bool :=
  match threadId with
  | Some thread =>
      sameChat chatId (Some forumChatId) && truthy thread
      && isCryptoThread topics thread
  | None => false
  end.

(** [topic?.name || 'Unknown Topic'] *)
Definition topicLabel (topic : option Topic) : string :=
  match topic with
  | Some t => if String.eqb (topic_name t) EmptyString then "Unknown Topic"
              else topic_name t
  | None => "Unknown Topic"
  end.

(** An example environment: the Bitcoin topic is thread 5 and the news
    topic thread 7 of the forum chat -1001234567890. *)
Definition exampleEnv (variable : string) : option string :=
  if String.eqb variable "TELEGRAM_TOPIC_BTC_ID_PROD" then Some "5"
  else if String.eqb variable "TELEGRAM_TOPIC_NEWS_ID_PROD" then Some "7"
  else None.

Definition exampleForumChat : Number :=
  S754_finite true 8202113580154880 (-13).

Definition thread5 : Number := S754_finite false 5629499534213120 (-50).

(** ** What a run of [executeTrade] sends and returns *)

Ltac run_js :=
  unfold executeTrade, placeMarketOrder, placeStopLossOrder,
    placeTakeProfitOrder, setLeverage, tryCatch, bind, ret, throw, log,
    logError, callFuturesLeverage, callFuturesOrder;
  cbn [fst snd requests console].

Ltac answer_of t :=
  let e := fresh "e" in
  let o := fresh "o" in
  destruct t as [e | o];
  cbn [fst snd requests console negb app];
  rewrite <- ?app_assoc; cbn [app]; rewrite ?app_nil_r; auto.

Lemma executeTrade_run (client : Client) (tp : TradeParams) (w : World) :
  requests (fst (executeTrade client tp w))
    = requests w ++ fst (tradeRun client tp (requests w))
  /\ snd (executeTrade client tp w) = snd (tradeRun client tp (requests w)).
Proof.
  unfold tradeRun, conditionalRun, leverageRequest, entryRequest, closingSide.
  run_js.
  answer_of (futuresLeverage client (requests w) (symbol tp) (leverage tp)).
  answer_of (futuresOrder client (requests w ++ [FuturesLeverage (symbol tp) (leverage tp)])
               (marketRequest tp)).
  destruct (hold tp); cbn [fst snd requests console negb app]; auto.
  destruct (whenTruthy (stopLoss tp)) as [v | ];
    destruct (whenTruthy (takeProfit tp)) as [v' | ];
    cbn [fst snd requests console app]; rewrite <- ?app_assoc; cbn [app];
    rewrite ?app_nil_r; auto.
  - answer_of (futuresOrder client
                 (requests w ++ [FuturesLeverage (symbol tp) (leverage tp);
                                 FuturesOrder (marketRequest tp)])
                 (conditionalRequest STOP_MARKET (symbol tp)
                    match side tp with LONG => SELL | SHORT => BUY end
                    (quantity tp) v)).
    match goal with
    | |- context [futuresOrder client ?h ?r] => answer_of (futuresOrder client h r)
    end.
  - match goal with
    | |- context [futuresOrder client ?h ?r] => answer_of (futuresOrder client h r)
    end.
  - match goal with
    | |- context [futuresOrder client ?h ?r] => answer_of (futuresOrder client h r)
    end.
Qed.

Lemma skipn_length_app {A} (l l' : list A) :
  skipn (List.length l) (l ++ l') = l'.
Proof. induction l as [ | a l IH]; simpl; auto. Qed.

Lemma executeTrade_issued (client : Client) (tp : TradeParams) (w : World) :
  issued (executeTrade client tp) w = fst (tradeRun client tp (requests w)).
Proof.
  unfold issued. rewrite (proj1 (executeTrade_run client tp w)).
  apply skipn_length_app.
Qed.

Lemma executeTrade_result (client : Client) (tp : TradeParams) (w : World) :
  result (executeTrade client tp) w = snd (tradeRun client tp (requests w)).
Proof. unfold result. apply (proj2 (executeTrade_run client tp w)). Qed.

(** A run only adds requests to those already sent. *)
Lemma executeTrade_extends (client : Client) (tp : TradeParams) (w : World) :
  requests (fst (executeTrade client tp w))
    = requests w ++ issued (executeTrade client tp) w.
Proof.
  rewrite executeTrade_issued. apply (proj1 (executeTrade_run client tp w)).
Qed.

(** The end-to-end example of the specification: four requests in order
    when every one is accepted. *)
Example executeTrade_long_example :
  parseCommand_try "BUY BTCUSDT 20x 0.01 SL=42000 TP=45000" = inr longParams
  /\ issued (executeTrade acceptAll longParams) emptyWorld
     = [FuturesLeverage "BTCUSDT" 20;
        entryRequest longParams;
        stopLossRequest longParams (S754_finite false 5772436045824000 (-37));
        takeProfitRequest longParams (S754_finite false 6184752906240000 (-37))]
  /\ result (executeTrade acceptAll longParams) emptyWorld
     = inr {| orderId := 1 |}.
Proof. repeat split; vm_compute; reflexivity. Qed.

(** ** What [processCommand] sends and answers *)

(** [processCommand] sends nothing for a command that does not parse, and
    otherwise sends what [executeTrade] sends; it answers [true] exactly
    when [executeTrade] returns. *)
Lemma processCommand_run (client : Client) (cmd : string) (w : World) :
  match parseCommand_try cmd with
  | inl _ =>
      issued (processCommand client cmd) w = []
      /\ result (processCommand client cmd) w = inr false
  | inr tp =>
      issued (processCommand client cmd) w
        = fst (tradeRun client tp (requests w))
      /\ result (processCommand client cmd) w
         = inr (negb (rejected (snd (tradeRun client tp (requests w)))))
  end.
Proof.
  unfold issued, result, processCommand, parseCommand.
  destruct (parseCommand_try cmd) as [err | tp];
    unfold bind, log, logError, ret, tryCatch;
    cbn [fst snd requests console].
  - split; [apply skipn_all | reflexivity].
  - match goal with
    | |- context [executeTrade client tp ?w1] =>
        pose proof (executeTrade_run client tp w1) as [Hreq Hres];
        destruct (executeTrade client tp w1) as [w2 r]
    end.
    cbn [fst snd requests console] in Hreq, Hres. rewrite <- Hres.
    destruct r as [e | o]; cbn [fst snd requests console rejected negb];
      rewrite Hreq; (split; [apply skipn_length_app | reflexivity]).
Qed.

(** ** Failure of a conditional order *)

Ltac by_tradeRun :=
  rewrite ?executeTrade_result, ?executeTrade_issued;
  unfold tradeRun, conditionalRun.

(** C1, as the code has it: when the leverage request and the entry order
    are accepted and the stop-loss order is then rejected, [executeTrade]
    throws the error of the stop-loss order to its caller, and
    [processCommand] answers [false] for a command that parses to these
    parameters. The entry order stands: it has been sent, and the
    stop-loss request is the last request of the run (nothing cancels the
    entry, and no take-profit order is attempted). *)
Theorem C1_stop_loss_failure_is_thrown
  (client : Client) (tp : TradeParams) (w : World)
  (mainOrder : Order) (price : Number) (e : JsError) :
  futuresLeverage client (requests w) (symbol tp) (leverage tp) = inr tt ->
  futuresOrder client (requests w ++ [leverageRequest tp]) (marketRequest tp)
    = inr mainOrder ->
  hold tp = false ->
  whenTruthy (stopLoss tp) = Some price ->
  futuresOrder client (requests w ++ [leverageRequest tp; entryRequest tp])
    (stopLossOrder tp price) = inl e ->
  result (executeTrade client tp) w = inl e
  /\ issued (executeTrade client tp) w
     = [leverageRequest tp; entryRequest tp; stopLossRequest tp price]
  /\ (forall cmd, parseCommand_try cmd = inr tp ->
        result (processCommand client cmd) w = inr false).
Proof.
  intros Hlev Hentry Hhold Hsl Hrej.
  assert (Hrun : tradeRun client tp (requests w)
                 = ([leverageRequest tp; entryRequest tp;
                     stopLossRequest tp price], inl e)).
  { unfold tradeRun, conditionalRun.
    rewrite Hlev, Hentry, Hhold, Hsl. fold (stopLossOrder tp price).
    rewrite Hrej. reflexivity. }
  rewrite executeTrade_result, executeTrade_issued, Hrun.
  repeat split. intros cmd Hcmd.
  pose proof (processCommand_run client cmd w) as Hproc.
  rewrite Hcmd, Hrun in Hproc. apply Hproc.
Qed.

Lemma C1_witness :
  result (executeTrade stopLossRejecting longParams) emptyWorld
    = inl {| message := "Order would immediately trigger." |}
  /\ issued (executeTrade stopLossRejecting longParams) emptyWorld
     = [leverageRequest longParams; entryRequest longParams;
        stopLossRequest longParams (S754_finite false 5772436045824000 (-37))]
  /\ (forall cmd, parseCommand_try cmd = inr longParams ->
        result (processCommand stopLossRejecting cmd) emptyWorld = inr false).
Proof.
  apply (C1_stop_loss_failure_is_thrown stopLossRejecting longParams emptyWorld
           {| orderId := 1 |}); reflexivity.
Defined.

(** The entry order is accepted, the stop-loss order is rejected, and the
    run ends in the error of the stop-loss order; [processCommand] answers
    [false]. No partial-success value is returned. *)
Lemma C1_counterexample :
  futuresOrder stopLossRejecting [leverageRequest longParams]
    (marketRequest longParams) = inr {| orderId := 1 |}
  /\ result (executeTrade stopLossRejecting longParams) emptyWorld
     = inl {| message := "Order would immediately trigger." |}
  /\ result (processCommand stopLossRejecting
               "BUY BTCUSDT 20x 0.01 SL=42000 TP=45000") emptyWorld
     = inr false.
Proof. repeat split; vm_compute; reflexivity. Qed.

(** ** The value returned *)

(** C2, as the code has it: whenever [executeTrade] returns, the value
    returned is the order object the exchange answered to the entry
    request, so it carries the entry order reference and nothing of the
    conditional orders. *)
Theorem C2_outcome_is_the_entry_order
  (client : Client) (tp : TradeParams) (w : World) (out : Order) :
  result (executeTrade client tp) w = inr out ->
  futuresOrder client (requests w ++ [leverageRequest tp]) (marketRequest tp)
    = inr out
  /\ In (entryRequest tp) (issued (executeTrade client tp) w).
Proof.
  by_tradeRun.
  destruct (futuresLeverage client (requests w) (symbol tp) (leverage tp))
    as [e | u]; cbn [fst snd]; [discriminate | ].
  destruct (futuresOrder client (requests w ++ [leverageRequest tp])
              (marketRequest tp)) as [e | o]; cbn [fst snd]; [discriminate | ].
  destruct (hold tp); cbn [fst snd].
  - intros H. split; [exact H | simpl; auto].
  - destruct (whenTruthy (stopLoss tp)) as [v | ]; cbn [fst snd].
    + destruct (futuresOrder client _ _) as [e | o1]; cbn [fst snd];
        [discriminate | ].
      destruct (whenTruthy (takeProfit tp)) as [v' | ]; cbn [fst snd].
      * destruct (futuresOrder client _ _) as [e | o2]; cbn [fst snd];
          [discriminate | ].
        intros H. split; [exact H | simpl; auto].
      * intros H. split; [exact H | simpl; auto].
    + destruct (whenTruthy (takeProfit tp)) as [v' | ]; cbn [fst snd].
      * destruct (futuresOrder client _ _) as [e | o2]; cbn [fst snd];
          [discriminate | ].
        intros H. split; [exact H | simpl; auto].
      * intros H. split; [exact H | simpl; auto].
Qed.

Lemma C2_witness :
  futuresOrder acceptAll ([] ++ [leverageRequest longParams])
    (marketRequest longParams) = inr {| orderId := 1 |}
  /\ In (entryRequest longParams)
       (issued (executeTrade acceptAll longParams) emptyWorld).
Proof.
  apply (C2_outcome_is_the_entry_order acceptAll longParams emptyWorld).
  reflexivity.
Defined.

(** Two exchanges answer the stop-loss and take-profit orders of the same
    run with different references (2 and 3, 7 and 8); both orders are
    placed, and the value returned is the entry order [{orderId: 1}] in
    both runs: the references of the conditional orders are not in it. *)
Lemma C2_counterexample :
  result (executeTrade acceptAll longParams) emptyWorld
    = inr {| orderId := 1 |}
  /\ result (executeTrade acceptAllFrom6 longParams) emptyWorld
     = inr {| orderId := 1 |}
  /\ issued (executeTrade acceptAll longParams) emptyWorld
     = issued (executeTrade acceptAllFrom6 longParams) emptyWorld
  /\ count isConditionalCall
       (issued (executeTrade acceptAll longParams) emptyWorld) = 2%nat
  /\ futuresOrder acceptAll [leverageRequest longParams; entryRequest longParams]
       (stopLossOrder longParams (S754_finite false 5772436045824000 (-37)))
     = inr {| orderId := 2 |}
  /\ futuresOrder acceptAllFrom6
       [leverageRequest longParams; entryRequest longParams]
       (stopLossOrder longParams (S754_finite false 5772436045824000 (-37)))
     = inr {| orderId := 7 |}.
Proof. repeat split; vm_compute; reflexivity. Qed.

(** ** Failure of the leverage request or of the entry order *)

(** C3: when the leverage request is rejected, it is the only request of
    the run, so no order is placed; when the entry order is rejected, the
    run has sent the leverage request and the entry order only, so no
    conditional order is placed. Both runs end in the error received. *)
Theorem C3_failure_stops_the_run
  (client : Client) (tp : TradeParams) (w : World) (e : JsError) :
  (futuresLeverage client (requests w) (symbol tp) (leverage tp) = inl e ->
   issued (executeTrade client tp) w = [leverageRequest tp]
   /\ filter isOrderCall (issued (executeTrade client tp) w) = []
   /\ result (executeTrade client tp) w = inl e)
  /\
  (futuresLeverage client (requests w) (symbol tp) (leverage tp) = inr tt ->
   futuresOrder client (requests w ++ [leverageRequest tp]) (marketRequest tp)
     = inl e ->
   issued (executeTrade client tp) w = [leverageRequest tp; entryRequest tp]
   /\ filter isConditionalCall (issued (executeTrade client tp) w) = []
   /\ result (executeTrade client tp) w = inl e).
Proof.
  split.
  - intros Hlev. by_tradeRun. rewrite Hlev. repeat split; reflexivity.
  - intros Hlev Hentry. by_tradeRun. rewrite Hlev, Hentry.
    repeat split; reflexivity.
Qed.

Lemma C3_witness :
  (issued (executeTrade leverageRejecting longParams) emptyWorld
     = [leverageRequest longParams]
   /\ filter isOrderCall
        (issued (executeTrade leverageRejecting longParams) emptyWorld) = []
   /\ result (executeTrade leverageRejecting longParams) emptyWorld
      = inl {| message := "Leverage is not valid." |})
  /\
  (issued (executeTrade entryRejecting longParams) emptyWorld
     = [leverageRequest longParams; entryRequest longParams]
   /\ filter isConditionalCall
        (issued (executeTrade entryRejecting longParams) emptyWorld) = []
   /\ result (executeTrade entryRejecting longParams) emptyWorld
      = inl {| message := "Margin is insufficient." |}).
Proof.
  split.
  - apply (proj1 (C3_failure_stops_the_run leverageRejecting longParams
                    emptyWorld {| message := "Leverage is not valid." |})).
    reflexivity.
  - apply (proj2 (C3_failure_stops_the_run entryRejecting longParams
                    emptyWorld {| message := "Margin is insufficient." |}));
      reflexivity.
Defined.

(** ** Hold mode *)

(** C4, as the code has it: with [hold] set, a run sends no conditional
    order whatever [stopLoss] and [takeProfit] are, sends exactly one
    leverage request, and sends exactly one entry order when the leverage
    request is accepted (none when it is rejected). *)
Theorem C4_hold_places_no_conditional_order
  (client : Client) (tp : TradeParams) (w : World) :
  hold tp = true ->
  count isConditionalCall (issued (executeTrade client tp) w) = 0%nat
  /\ count isLeverageCall (issued (executeTrade client tp) w) = 1%nat
  /\ count isMarketCall (issued (executeTrade client tp) w)
     = (if rejected (futuresLeverage client (requests w) (symbol tp)
                       (leverage tp))
        then 0%nat else 1%nat)
  /\ count isOrderCall (issued (executeTrade client tp) w)
     = count isMarketCall (issued (executeTrade client tp) w).
Proof.
  intros Hhold. by_tradeRun. rewrite Hhold.
  destruct (futuresLeverage client (requests w) (symbol tp) (leverage tp))
    as [e | u]; cbn [rejected].
  - repeat split; reflexivity.
  - destruct (futuresOrder client (requests w ++ [leverageRequest tp])
                (marketRequest tp)) as [e | o]; repeat split; reflexivity.
Qed.

Lemma C4_witness :
  count isConditionalCall
    (issued (executeTrade acceptAll holdParams) emptyWorld) = 0%nat
  /\ count isLeverageCall
       (issued (executeTrade acceptAll holdParams) emptyWorld) = 1%nat
  /\ count isMarketCall
       (issued (executeTrade acceptAll holdParams) emptyWorld) = 1%nat
  /\ count isOrderCall
       (issued (executeTrade acceptAll holdParams) emptyWorld)
     = count isMarketCall
         (issued (executeTrade acceptAll holdParams) emptyWorld).
Proof.
  apply (C4_hold_places_no_conditional_order acceptAll holdParams emptyWorld).
  reflexivity.
Defined.

(** With [hold] set and the leverage request rejected, no entry order is
    sent: the count of entry orders is 0, not 1. *)
Lemma C4_counterexample :
  hold holdParams = true
  /\ result (executeTrade leverageRejecting holdParams) emptyWorld
     = inl {| message := "Leverage is not valid." |}
  /\ count isMarketCall
       (issued (executeTrade leverageRejecting holdParams) emptyWorld)
     = 0%nat.
Proof. repeat split; vm_compute; reflexivity. Qed.

(** ** Entry side and closing side *)

(** C8: in a run without [hold], every order sent has the side fixed by
    the direction: [LONG] enters with [BUY] and closes, for stop-loss and
    take-profit alike, with [SELL]; [SHORT] enters with [SELL] and closes
    with [BUY]. The closing side is the opposite of the entry side. *)
Theorem C8_entry_and_closing_sides
  (client : Client) (tp : TradeParams) (w : World) (o : OrderRequest) :
  hold tp = false ->
  In (FuturesOrder o) (issued (executeTrade client tp) w) ->
  req_side o
    = match side tp, req_type o with
      | LONG, MARKET => BUY
      | LONG, (STOP_MARKET | TAKE_PROFIT_MARKET) => SELL
      | SHORT, MARKET => SELL
      | SHORT, (STOP_MARKET | TAKE_PROFIT_MARKET) => BUY
      end
  /\ req_side o
     = (if isMarketCall (FuturesOrder o) then entrySide (side tp)
        else closingSide (side tp))
  /\ closingSide (side tp) = opposite (entrySide (side tp)).
Proof.
  intros Hhold. by_tradeRun. rewrite Hhold.
  assert (Hcases :
            o = marketRequest tp
            \/ (exists v, o = stopLossOrder tp v)
            \/ (exists v, o = takeProfitOrder tp v) ->
            req_side o
              = match side tp, req_type o with
                | LONG, MARKET => BUY
                | LONG, (STOP_MARKET | TAKE_PROFIT_MARKET) => SELL
                | SHORT, MARKET => SELL
                | SHORT, (STOP_MARKET | TAKE_PROFIT_MARKET) => BUY
                end
            /\ req_side o
               = (if isMarketCall (FuturesOrder o) then entrySide (side tp)
                  else closingSide (side tp))
            /\ closingSide (side tp) = opposite (entrySide (side tp))).
  { intros [-> | [[v ->] | [v ->]]];
      unfold marketRequest, stopLossOrder, takeProfitOrder, conditionalRequest,
        isMarketCall;
      cbn [req_side req_type]; destruct (side tp); repeat split; reflexivity. }
  intros Hin. apply Hcases. clear Hcases. revert Hin.
  unfold leverageRequest, entryRequest.
  repeat match goal with
         | |- context [futuresLeverage client ?h ?s ?l] =>
             destruct (futuresLeverage client h s l) as [? | ?]
         | |- context [futuresOrder client ?h ?r] =>
             destruct (futuresOrder client h r) as [? | ?]
         | |- context [whenTruthy ?p] =>
             let v := fresh "v" in destruct (whenTruthy p) as [v | ]
         | _ => progress cbn [fst snd In app]
         end;
    intros Hin;
    repeat match type of Hin with
           | _ \/ _ => destruct Hin as [Hin | Hin]
           end;
    try contradiction; try discriminate;
    injection Hin as <-;
    first [ left; reflexivity
          | right; left; eexists; reflexivity
          | right; right; eexists; reflexivity ].
Qed.

Lemma C8_witness :
  req_side (stopLossOrder longParams (S754_finite false 5772436045824000 (-37)))
    = match side longParams,
            req_type (stopLossOrder longParams
                        (S754_finite false 5772436045824000 (-37))) with
      | LONG, MARKET => BUY
      | LONG, (STOP_MARKET | TAKE_PROFIT_MARKET) => SELL
      | SHORT, MARKET => SELL
      | SHORT, (STOP_MARKET | TAKE_PROFIT_MARKET) => BUY
      end
  /\ req_side (stopLossOrder longParams
                 (S754_finite false 5772436045824000 (-37)))
     = (if isMarketCall
             (FuturesOrder
                (stopLossOrder longParams
                   (S754_finite false 5772436045824000 (-37))))
        then entrySide (side longParams)
        else closingSide (side longParams))
  /\ closingSide (side longParams) = opposite (entrySide (side longParams)).
Proof.
  apply (C8_entry_and_closing_sides acceptAll longParams emptyWorld
           (stopLossOrder longParams
              (S754_finite false 5772436045824000 (-37)))).
  - reflexivity.
  - vm_compute. right. right. left. reflexivity.
Defined.


(** ** The parser *)

Lemma applyParam_required (tp : TradeParams) (param : string) :
  side (applyParam tp param) = side tp
  /\ symbol (applyParam tp param) = symbol tp
  /\ leverage (applyParam tp param) = leverage tp
  /\ quantity (applyParam tp param) = quantity tp.
Proof.
  unfold applyParam.
  destruct (startsWith param "SL=").
  - destruct (negb (isNaN (valueAfterEquals param))); repeat split.
  - destruct (startsWith param "TP=").
    + destruct (negb (isNaN (valueAfterEquals param))); repeat split.
    + destruct (String.eqb (toUpperCase param) "HOLD"); repeat split.
Qed.

(** The loop over the optional tokens leaves the four required fields as
    they are. *)
Lemma fold_applyParam_required (rest : list string) (tp : TradeParams) :
  side (fold_left applyParam rest tp) = side tp
  /\ symbol (fold_left applyParam rest tp) = symbol tp
  /\ leverage (fold_left applyParam rest tp) = leverage tp
  /\ quantity (fold_left applyParam rest tp) = quantity tp.
Proof.
  revert tp. induction rest as [ | param rest IH]; intros tp; simpl.
  - repeat split.
  - destruct (IH (applyParam tp param)) as (Hs & Hy & Hl & Hq).
    destruct (applyParam_required tp param) as (Hs' & Hy' & Hl' & Hq').
    repeat split; congruence.
Qed.

(** [parseCommand_try] on a command of at least four tokens, test by
    test. *)
Lemma parseCommand_try_parts (cmd p0 p1 p2 p3 : string) (rest : list string) :
  split_ws (trim cmd) = p0 :: p1 :: p2 :: p3 :: rest ->
  parseCommand_try cmd
  = if negb (validDirection p0) then inl {| message := msg_direction |}
    else match leverageOf p2 with
         | None => inl {| message := msg_leverage |}
         | Some n =>
             if (n <? 1) || (n >? 125) then inl {| message := msg_leverage |}
             else if quantityRejected (parseFloat p3)
                  then inl {| message := msg_quantity |}
                  else inr (fold_left applyParam rest
                              (requiredParams p0 p1 n (parseFloat p3)))
         end.
Proof. intros H. unfold parseCommand_try. rewrite H. reflexivity. Qed.


Lemma messages_distinct :
  msg_parts <> msg_direction /\ msg_parts <> msg_leverage
  /\ msg_parts <> msg_quantity /\ msg_direction <> msg_leverage
  /\ msg_direction <> msg_quantity /\ msg_leverage <> msg_quantity.
Proof. repeat split; apply String.eqb_neq; vm_compute; reflexivity. Qed.

(** A successful parse of a command of at least four tokens: the values
    that passed the tests. *)
Lemma parseCommand_try_success (cmd p0 p1 p2 p3 : string) (rest : list string)
  (tp : TradeParams) :
  split_ws (trim cmd) = p0 :: p1 :: p2 :: p3 :: rest ->
  parseCommand_try cmd = inr tp ->
  validDirection p0 = true
  /\ exists n,
       leverageOf p2 = Some n /\ (n <? 1) || (n >? 125) = false
       /\ quantityRejected (parseFloat p3) = false
       /\ tp = fold_left applyParam rest (requiredParams p0 p1 n (parseFloat p3)).
Proof.
  intros Hparts. rewrite (parseCommand_try_parts _ _ _ _ _ _ Hparts).
  destruct (validDirection p0); cbn [negb]; [ | discriminate].
  destruct (leverageOf p2) as [n | ]; [ | discriminate].
  destruct ((n <? 1) || (n >? 125)) eqn:Hn; [discriminate | ].
  destruct (quantityRejected (parseFloat p3)) eqn:Hq; [discriminate | ].
  intros H. injection H as <-. split; [reflexivity | ].
  exists n. repeat split; assumption.
Qed.

(** *** Tokens made of digits *)

Lemma isDigit_facts (c : ascii) :
  isDigit c = true ->
  isWhiteSpace c = false
  /\ Ascii.eqb c "-" = false /\ Ascii.eqb c "+" = false
  /\ Ascii.eqb c "x" = false /\ Ascii.eqb c "X" = false.
Proof.
  destruct c as [[] [] [] [] [] [] [] []]; intros H; vm_compute in H;
    try discriminate H; vm_compute; repeat split.
Qed.

Lemma span_allDigits (ds : string) :
  allDigits ds = true -> span isDigit ds = (ds, EmptyString).
Proof.
  induction ds as [ | c ds IH]; simpl; intros H; [reflexivity | ].
  apply andb_true_iff in H. destruct H as [Hc Hds].
  rewrite Hc, (IH Hds). reflexivity.
Qed.

Lemma remove_first_x_allDigits (ds : string) :
  allDigits ds = true -> remove_first "x" (ds ++ "x")%string = ds.
Proof.
  induction ds as [ | c ds IH]; simpl; intros H; [reflexivity | ].
  apply andb_true_iff in H. destruct H as [Hc Hds].
  destruct (isDigit_facts c Hc) as (_ & _ & _ & Hx & _).
  rewrite Hx, (IH Hds). reflexivity.
Qed.

(** [parseInt] on a non-empty string of digits reads all of it. *)
Lemma parseInt_allDigits (ds : string) :
  allDigits ds = true -> ds <> EmptyString ->
  parseInt ds = Some (digitsValue 0 ds).
Proof.
  intros Hds Hne. destruct ds as [ | c ds]; [congruence | ].
  pose proof Hds as Hall. simpl in Hds.
  apply andb_true_iff in Hds. destruct Hds as [Hc Hrest].
  destruct (isDigit_facts c Hc) as (Hws & Hminus & Hplus & _ & _).
  unfold parseInt. cbn [trimStart]. rewrite Hws.
  unfold takeSign. rewrite Hminus, Hplus.
  assert (Hhex : stripHexPrefix (String c ds) = None).
  { destruct ds as [ | c1 ds]; [reflexivity | ].
    simpl in Hrest. apply andb_true_iff in Hrest. destruct Hrest as [Hc1 _].
    destruct (isDigit_facts c1 Hc1) as (_ & _ & _ & Hx & HX).
    unfold stripHexPrefix. rewrite Hx, HX, andb_false_r. reflexivity. }
  rewrite Hhex. unfold decimalPrefix. rewrite (span_allDigits _ Hall).
  reflexivity.
Qed.

(** A token [<digits>x] is read as the integer written. *)
Lemma leverageOf_digits_x (ds : string) :
  allDigits ds = true -> ds <> EmptyString ->
  leverageOf (ds ++ "x")%string = Some (digitsValue 0 ds).
Proof.
  intros Hds Hne. unfold leverageOf.
  rewrite (remove_first_x_allDigits _ Hds). apply parseInt_allDigits; assumption.
Qed.

(** C5, as the code has it: for a command of at least four tokens with a
    valid direction, the parse fails with the leverage message exactly
    when [parseInt] of token 3 with its first [x] deleted is [NaN] or
    lies outside 1..125; a successful parse stores that integer, which lies
    in 1..125; a token [<digits>x] is read as the integer written; [1x] and
    [125x] pass the test, [0x] and [126x] fail it. *)
Theorem C5_leverage_token
  (cmd p0 p1 p2 p3 : string) (rest : list string) :
  split_ws (trim cmd) = p0 :: p1 :: p2 :: p3 :: rest ->
  validDirection p0 = true ->
  (parseCommand_try cmd = inl {| message := msg_leverage |}
   <-> leverageRejected (leverageOf p2) = true)
  /\ (forall tp, parseCommand_try cmd = inr tp ->
        leverageOf p2 = Some (leverage tp) /\ 1 <= leverage tp <= 125)
  /\ (forall ds, allDigits ds = true -> ds <> EmptyString -> p2 = (ds ++ "x")%string ->
        leverageOf p2 = Some (digitsValue 0 ds))
  /\ (leverageRejected (leverageOf "1x") = false
      /\ leverageRejected (leverageOf "125x") = false
      /\ leverageRejected (leverageOf "0x") = true
      /\ leverageRejected (leverageOf "126x") = true).
Proof.
  intros Hparts Hdir.
  split; [ | split; [ | split]].
  - rewrite (parseCommand_try_parts _ _ _ _ _ _ Hparts), Hdir. cbn [negb].
    unfold leverageRejected.
    destruct (leverageOf p2) as [n | ]; [ | split; reflexivity].
    destruct ((n <? 1) || (n >? 125)); [split; reflexivity | ].
    destruct (quantityRejected (parseFloat p3)); split; intros H;
      discriminate H.
  - intros tp Htp.
    destruct (parseCommand_try_success _ _ _ _ _ _ _ Hparts Htp)
      as (_ & n & Hlev & Hrange & _ & ->).
    destruct (fold_applyParam_required rest
                (requiredParams p0 p1 n (parseFloat p3))) as (_ & _ & -> & _).
    cbn [leverage requiredParams]. split; [exact Hlev | ].
    apply orb_false_iff in Hrange. destruct Hrange as [H1 H2].
    apply Z.ltb_ge in H1. rewrite Z.gtb_ltb in H2. apply Z.ltb_ge in H2. lia.
  - intros ds Hds Hne ->. apply leverageOf_digits_x; assumption.
  - repeat split; vm_compute; reflexivity.
Qed.

Lemma C5_witness :
  (parseCommand_try "BUY BTCUSDT 20x 0.01" = inl {| message := msg_leverage |}
   <-> leverageRejected (leverageOf "20x") = true)
  /\ (forall tp, parseCommand_try "BUY BTCUSDT 20x 0.01" = inr tp ->
        leverageOf "20x" = Some (leverage tp) /\ 1 <= leverage tp <= 125)
  /\ (forall ds, allDigits ds = true -> ds <> EmptyString -> "20x" = (ds ++ "x")%string ->
        leverageOf "20x" = Some (digitsValue 0 ds))
  /\ (leverageRejected (leverageOf "1x") = false
      /\ leverageRejected (leverageOf "125x") = false
      /\ leverageRejected (leverageOf "0x") = true
      /\ leverageRejected (leverageOf "126x") = true).
Proof.
  apply (C5_leverage_token "BUY BTCUSDT 20x 0.01" "BUY" "BTCUSDT" "20x" "0.01" []);
    reflexivity.
Defined.

(** Token 3 is [20], without the [x], and [20abc]: neither matches
    [<integer>x], and both commands parse, with leverage 20. *)
Lemma C5_counterexample :
  matchesLeverageGrammar "20" = false
  /\ parseCommand_try "BUY BTCUSDT 20 1"
     = inr {| side := LONG; symbol := "BTCUSDT"; leverage := 20;
              quantity := S754_finite false 4503599627370496 (-52);
              stopLoss := None; takeProfit := None; hold := false |}
  /\ matchesLeverageGrammar "20abc" = false
  /\ parseCommand_try "BUY BTCUSDT 20abc 1"
     = inr {| side := LONG; symbol := "BTCUSDT"; leverage := 20;
              quantity := S754_finite false 4503599627370496 (-52);
              stopLoss := None; takeProfit := None; hold := false |}.
Proof. repeat split; vm_compute; reflexivity. Qed.

(** *** The quantity *)

(** The quantity test passes for the positive Numbers, [+Infinity]
    included, and for no other. *)
Lemma quantityRejected_false_iff (q : Number) :
  quantityRejected q = false
  <-> q = S754_infinity false \/ exists m e, q = S754_finite false m e.
Proof.
  destruct q as [s | s | | s m e]; try destruct s; cbn; split;
    try discriminate; try (intros [H | (m' & e' & H)]; discriminate H);
    intros _; eauto.
Qed.

(** C6, as the code has it: for a command of at least four tokens whose
    direction and leverage pass, the parse fails with the quantity message
    exactly when [parseFloat] of token 4 is [NaN] or is at most 0; a
    successful parse stores [parseFloat] of token 4, and that Number is
    positive: finite and above 0, or [+Infinity]. *)
Theorem C6_quantity_token
  (cmd p0 p1 p2 p3 : string) (rest : list string) :
  split_ws (trim cmd) = p0 :: p1 :: p2 :: p3 :: rest ->
  validDirection p0 = true ->
  leverageRejected (leverageOf p2) = false ->
  (parseCommand_try cmd = inl {| message := msg_quantity |}
   <-> isNaN (parseFloat p3) || lessEq (parseFloat p3) zero = true)
  /\ (forall tp, parseCommand_try cmd = inr tp ->
        quantity tp = parseFloat p3
        /\ (quantity tp = S754_infinity false
            \/ exists m e, quantity tp = S754_finite false m e)).
Proof.
  intros Hparts Hdir Hlev. split.
  - rewrite (parseCommand_try_parts _ _ _ _ _ _ Hparts), Hdir. cbn [negb].
    unfold leverageRejected in Hlev.
    destruct (leverageOf p2) as [n | ]; [ | discriminate Hlev].
    rewrite Hlev. unfold quantityRejected.
    destruct (isNaN (parseFloat p3) || lessEq (parseFloat p3) zero); split;
      intros H; try reflexivity; discriminate H.
  - intros tp Htp.
    destruct (parseCommand_try_success _ _ _ _ _ _ _ Hparts Htp)
      as (_ & n & _ & _ & Hq & ->).
    destruct (fold_applyParam_required rest
                (requiredParams p0 p1 n (parseFloat p3))) as (_ & _ & _ & ->).
    cbn [quantity requiredParams]. split; [reflexivity | ].
    apply quantityRejected_false_iff. exact Hq.
Qed.

Lemma C6_witness :
  (parseCommand_try "SELL ETHUSDT 10x -0.1" = inl {| message := msg_quantity |}
   <-> isNaN (parseFloat "-0.1") || lessEq (parseFloat "-0.1") zero = true)
  /\ (forall tp, parseCommand_try "SELL ETHUSDT 10x -0.1" = inr tp ->
        quantity tp = parseFloat "-0.1"
        /\ (quantity tp = S754_infinity false
            \/ exists m e, quantity tp = S754_finite false m e)).
Proof.
  apply (C6_quantity_token "SELL ETHUSDT 10x -0.1" "SELL" "ETHUSDT" "10x" "-0.1" []);
    reflexivity.
Defined.

(** The quantity tokens [0], [-1], [abc] and [1e-400] (which rounds to 0)
    are rejected. *)
Example quantity_rejected_examples :
  parseCommand_try "BUY BTCUSDT 5x 0" = inl {| message := msg_quantity |}
  /\ parseCommand_try "BUY BTCUSDT 5x -1" = inl {| message := msg_quantity |}
  /\ parseCommand_try "BUY BTCUSDT 5x abc" = inl {| message := msg_quantity |}
  /\ parseCommand_try "BUY BTCUSDT 5x 1e-400"
     = inl {| message := msg_quantity |}.
Proof. repeat split; vm_compute; reflexivity. Qed.

(** Token 4 is [1abc], which is not a decimal, and [Infinity], which is
    not finite: both commands parse, with quantity 1 and [+Infinity]. *)
Lemma C6_counterexample :
  matchesDecimalGrammar "1abc" = false
  /\ parseCommand_try "BUY BTCUSDT 5x 1abc"
     = inr {| side := LONG; symbol := "BTCUSDT"; leverage := 5;
              quantity := S754_finite false 4503599627370496 (-52);
              stopLoss := None; takeProfit := None; hold := false |}
  /\ parseCommand_try "BUY BTCUSDT 5x Infinity"
     = inr {| side := LONG; symbol := "BTCUSDT"; leverage := 5;
              quantity := S754_infinity false;
              stopLoss := None; takeProfit := None; hold := false |}.
Proof. repeat split; vm_compute; reflexivity. Qed.

(** *** Letter case of the keywords *)

Lemma upper_idempotent (c : ascii) : upper (upper c) = upper c.
Proof.
  destruct c as [[] [] [] [] [] [] [] []]; vm_compute; reflexivity.
Qed.

Lemma toUpperCase_idempotent (s : string) :
  toUpperCase (toUpperCase s) = toUpperCase s.
Proof.
  induction s as [ | c s IH]; simpl; [reflexivity | ].
  rewrite upper_idempotent, IH. reflexivity.
Qed.

(** The direction is matched whatever its letter case. *)
Lemma validDirection_any_case (p0 : string) :
  validDirection (toUpperCase p0) = validDirection p0.
Proof. unfold validDirection. rewrite toUpperCase_idempotent. reflexivity. Qed.

(** [HOLD] is matched whatever its letter case. *)
Lemma applyParam_hold_any_case (tp : TradeParams) (param : string) :
  toUpperCase param = "HOLD" -> applyParam tp param = set_hold tp.
Proof.
  intros H. unfold applyParam. rewrite H. cbn [String.eqb].
  assert (Hkey : forall k1 k2 : ascii,
             upper k1 <> "H"%char ->
             startsWith param (String k1 (String k2 "=")) = false).
  { intros k1 k2 Hk.
    destruct param as [ | c1 param]; [reflexivity | ].
    unfold startsWith. cbn [String.prefix].
    destruct (ascii_dec k1 c1) as [<- | ]; [ | reflexivity].
    simpl in H. injection H as H1 _. contradiction. }
  rewrite (Hkey "S" "L")%char, (Hkey "T" "P")%char by (vm_compute; discriminate).
  reflexivity.
Qed.

(** C7 at the failing input: [SL=100 TP=200] sets both prices, and the
    same command with [sl=100 tp=200] sets neither, while the direction
    and [hold] are matched in lower case; a token that starts with [sl=]
    or [tp=] never changes the object. *)
Theorem C7_lowercase_sl_tp_are_ignored :
  (forall (tp : TradeParams) (v : string),
      applyParam tp ("sl=" ++ v)%string = tp
      /\ applyParam tp ("tp=" ++ v)%string = tp)
  /\
  parseCommand_try "BUY BTCUSDT 5x 1 SL=100 TP=200"
  = inr {| side := LONG; symbol := "BTCUSDT"; leverage := 5;
           quantity := S754_finite false 4503599627370496 (-52);
           stopLoss := Some (S754_finite false 7036874417766400 (-46));
           takeProfit := Some (S754_finite false 7036874417766400 (-45));
           hold := false |}
  /\ parseCommand_try "BUY BTCUSDT 5x 1 sl=100 tp=200"
     = inr {| side := LONG; symbol := "BTCUSDT"; leverage := 5;
              quantity := S754_finite false 4503599627370496 (-52);
              stopLoss := None; takeProfit := None; hold := false |}
  /\ parseCommand_try "buy btcusdt 5x 1 hold"
     = inr {| side := LONG; symbol := "BTCUSDT"; leverage := 5;
              quantity := S754_finite false 4503599627370496 (-52);
              stopLoss := None; takeProfit := None; hold := true |}.
Proof.
  split; [intros tp v; split; reflexivity | ].
  repeat split; vm_compute; reflexivity.
Qed.

(** *** Failures of the parser *)

(** A parse that succeeds writes nothing and returns the object. *)
Lemma parseCommand_success (cmd : string) (tp : TradeParams) (w : World) :
  parseCommand_try cmd = inr tp -> parseCommand cmd w = (w, inr (Some tp)).
Proof. intros H. unfold parseCommand. rewrite H. reflexivity. Qed.

(** C9, as the code has it: for every malformed command, the error thrown
    inside [parseCommand] has one of four messages, and [parseCommand]
    itself writes that message to [console.error], sends nothing to the
    exchange and returns [null], whatever the reason was. *)
Theorem C9_failure_is_logged_and_null
  (cmd : string) (err : JsError) (w : World) :
  parseCommand_try cmd = inl err ->
  In (message err) [msg_parts; msg_direction; msg_leverage; msg_quantity]
  /\ parseCommand cmd w
     = ({| requests := requests w;
           console := console w ++ [parseErrorLine err] |}, inr None).
Proof.
  intros Herr. split.
  - revert Herr. unfold parseCommand_try.
    destruct (split_ws (trim cmd)) as [ | p0 [ | p1 [ | p2 [ | p3 rest]]]];
      try (intros H; injection H as <-; simpl; auto).
    destruct (negb _); [intros H; injection H as <-; simpl; auto | ].
    destruct (parseInt _) as [n | ]; [ | intros H; injection H as <-; simpl; auto].
    destruct ((n <? 1) || (n >? 125));
      [intros H; injection H as <-; simpl; auto | ].
    destruct (quantityRejected _);
      [intros H; injection H as <-; simpl; auto 6 | discriminate].
  - unfold parseCommand. rewrite Herr. reflexivity.
Qed.

Lemma C9_witness :
  In (message {| message := msg_leverage |})
    [msg_parts; msg_direction; msg_leverage; msg_quantity]
  /\ parseCommand "BUY BTCUSDT 126x 1" emptyWorld
     = ({| requests := requests emptyWorld;
           console := console emptyWorld
                      ++ [parseErrorLine {| message := msg_leverage |}] |},
        inr None).
Proof.
  apply (C9_failure_is_logged_and_null "BUY BTCUSDT 126x 1"
           {| message := msg_leverage |} emptyWorld).
  reflexivity.
Defined.

(** Two malformed commands fail for different reasons, and [parseCommand]
    returns the same value, [null], for both; the reason is not in the
    value returned, and the parser has written a console line. *)
Lemma C9_counterexample :
  parseCommand_try "BUY BTCUSDT" = inl {| message := msg_parts |}
  /\ parseCommand_try "HODL BTCUSDT 5x 1" = inl {| message := msg_direction |}
  /\ msg_parts <> msg_direction
  /\ result (parseCommand "BUY BTCUSDT") emptyWorld = inr None
  /\ result (parseCommand "HODL BTCUSDT 5x 1") emptyWorld = inr None
  /\ console (fst (parseCommand "BUY BTCUSDT" emptyWorld))
     = [parseErrorLine {| message := msg_parts |}].
Proof.
  repeat split; try (vm_compute; reflexivity).
  apply String.eqb_neq. vm_compute. reflexivity.
Qed.

(** ** A price of zero *)

Lemma no_stop_loss_when_falsy (client : Client) (tp : TradeParams) (w : World) :
  whenTruthy (stopLoss tp) = None ->
  count isStopLossCall (issued (executeTrade client tp) w) = 0%nat.
Proof.
  intros H. by_tradeRun. rewrite H.
  repeat match goal with
         | |- context [futuresLeverage client ?h ?s ?l] =>
             destruct (futuresLeverage client h s l) as [? | ?]
         | |- context [futuresOrder client ?h ?r] =>
             destruct (futuresOrder client h r) as [? | ?]
         | |- context [whenTruthy ?p] =>
             let v := fresh "v" in destruct (whenTruthy p) as [v | ]
         | |- context [hold tp] => destruct (hold tp)
         end;
    reflexivity.
Qed.

Lemma no_take_profit_when_falsy (client : Client) (tp : TradeParams) (w : World) :
  whenTruthy (takeProfit tp) = None ->
  count isTakeProfitCall (issued (executeTrade client tp) w) = 0%nat.
Proof.
  intros H. by_tradeRun. rewrite H.
  repeat match goal with
         | |- context [futuresLeverage client ?h ?s ?l] =>
             destruct (futuresLeverage client h s l) as [? | ?]
         | |- context [futuresOrder client ?h ?r] =>
             destruct (futuresOrder client h r) as [? | ?]
         | |- context [whenTruthy ?p] =>
             let v := fresh "v" in destruct (whenTruthy p) as [v | ]
         | |- context [hold tp] => destruct (hold tp)
         end;
    reflexivity.
Qed.

(** The tokens [SL=0] and [TP=0] store the Number 0. *)
Lemma applyParam_zero (tp : TradeParams) :
  applyParam tp "SL=0" = set_stopLoss zero tp
  /\ applyParam tp "TP=0" = set_takeProfit zero tp.
Proof. split; reflexivity. Qed.

(** A token that is not [SL=...] leaves [stopLoss] as it is, and one that
    is not [TP=...] leaves [takeProfit]. *)
Lemma applyParam_other_key (tp : TradeParams) (param : string) :
  (startsWith param "SL=" = false ->
   stopLoss (applyParam tp param) = stopLoss tp)
  /\ (startsWith param "TP=" = false ->
      takeProfit (applyParam tp param) = takeProfit tp).
Proof.
  unfold applyParam. split; intros H.
  - rewrite H. destruct (startsWith param "TP=").
    + destruct (negb (isNaN (valueAfterEquals param))); reflexivity.
    + destruct (String.eqb (toUpperCase param) "HOLD"); reflexivity.
  - rewrite H. destruct (startsWith param "SL=").
    + destruct (negb (isNaN (valueAfterEquals param))); reflexivity.
    + destruct (String.eqb (toUpperCase param) "HOLD"); reflexivity.
Qed.

Lemma fold_applyParam_other_key (key : string) (get : TradeParams -> option Number)
  (rest : list string) (tp : TradeParams) :
  (forall tp' param, startsWith param key = false ->
     get (applyParam tp' param) = get tp') ->
  forallb (fun param => negb (startsWith param key)) rest = true ->
  get (fold_left applyParam rest tp) = get tp.
Proof.
  intros Hstep. revert tp.
  induction rest as [ | param rest IH]; intros tp Hall; simpl in *.
  - reflexivity.
  - apply andb_true_iff in Hall. destruct Hall as [Hp Hrest].
    rewrite (IH _ Hrest). apply Hstep. apply negb_true_iff. exact Hp.
Qed.

(** C10: a command that supplies [SL=0] (or [TP=0]) among its optional
    tokens, with no later token of the same key, parses to an object
    whose [stopLoss] (or [takeProfit]) is the Number 0, not [null]; and a
    run on that object sends no stop-loss (or take-profit) order, with
    [hold] unset as well, because [if (stopLoss)] is false for 0. *)
Theorem C10_zero_price_is_stored_and_skipped
  (cmd p0 p1 p2 p3 : string) (before after : list string) (tp : TradeParams)
  (client : Client) (w : World) :
  parseCommand_try cmd = inr tp ->
  (split_ws (trim cmd) = p0 :: p1 :: p2 :: p3 :: before ++ "SL=0" :: after ->
   forallb (fun param => negb (startsWith param "SL=")) after = true ->
   stopLoss tp = Some zero
   /\ whenTruthy (stopLoss tp) = None
   /\ count isStopLossCall (issued (executeTrade client tp) w) = 0%nat)
  /\
  (split_ws (trim cmd) = p0 :: p1 :: p2 :: p3 :: before ++ "TP=0" :: after ->
   forallb (fun param => negb (startsWith param "TP=")) after = true ->
   takeProfit tp = Some zero
   /\ whenTruthy (takeProfit tp) = None
   /\ count isTakeProfitCall (issued (executeTrade client tp) w) = 0%nat).
Proof.
  intros Htp. split; intros Hparts Hafter;
    destruct (parseCommand_try_success _ _ _ _ _ _ _ Hparts Htp)
      as (_ & n & _ & _ & _ & Heq);
    rewrite fold_left_app in Heq; cbn [fold_left] in Heq.
  - rewrite (proj1 (applyParam_zero _)) in Heq.
    assert (Hsl : stopLoss tp = Some zero).
    { rewrite Heq.
      rewrite (fold_applyParam_other_key "SL=" stopLoss after _
                 (fun tp' param => proj1 (applyParam_other_key tp' param))
                 Hafter).
      reflexivity. }
    assert (Hfalsy : whenTruthy (stopLoss tp) = None)
      by (rewrite Hsl; reflexivity).
    repeat split; try assumption. apply no_stop_loss_when_falsy. exact Hfalsy.
  - rewrite (proj2 (applyParam_zero _)) in Heq.
    assert (Htk : takeProfit tp = Some zero).
    { rewrite Heq.
      rewrite (fold_applyParam_other_key "TP=" takeProfit after _
                 (fun tp' param => proj2 (applyParam_other_key tp' param))
                 Hafter).
      reflexivity. }
    assert (Hfalsy : whenTruthy (takeProfit tp) = None)
      by (rewrite Htk; reflexivity).
    repeat split; try assumption. apply no_take_profit_when_falsy. exact Hfalsy.
Qed.

Lemma C10_witness :
  (stopLoss zeroStopParams = Some zero
   /\ whenTruthy (stopLoss zeroStopParams) = None
   /\ count isStopLossCall
        (issued (executeTrade acceptAll zeroStopParams) emptyWorld) = 0%nat)
  /\
  (takeProfit zeroTakeParams = Some zero
   /\ whenTruthy (takeProfit zeroTakeParams) = None
   /\ count isTakeProfitCall
        (issued (executeTrade acceptAll zeroTakeParams) emptyWorld) = 0%nat).
Proof.
  split.
  - refine (proj1 (C10_zero_price_is_stored_and_skipped
                     "BUY BTCUSDT 5x 1 SL=0" "BUY" "BTCUSDT" "5x" "1" [] []
                     zeroStopParams acceptAll emptyWorld _) _ _);
      vm_compute; reflexivity.
  - refine (proj2 (C10_zero_price_is_stored_and_skipped
                     "BUY BTCUSDT 5x 1 TP=0" "BUY" "BTCUSDT" "5x" "1" [] []
                     zeroTakeParams acceptAll emptyWorld _) _ _);
      vm_compute; reflexivity.
Defined.

(** With [SL=0] and every request accepted, the run is the leverage
    request and the entry order: no stop-loss order, although [stopLoss]
    is not [null]. *)
Example zero_stop_loss_run :
  parseCommand_try "BUY BTCUSDT 5x 1 SL=0" = inr zeroStopParams
  /\ issued (executeTrade acceptAll zeroStopParams) emptyWorld
     = [leverageRequest zeroStopParams; entryRequest zeroStopParams].
Proof. split; vm_compute; reflexivity. Qed.

(** * Further properties of the code *)

(** ** White space and tokens *)

Lemma append_assoc (a b c : string) :
  (a ++ b ++ c)%string = ((a ++ b) ++ c)%string.
Proof. induction a as [ | x a IH]; simpl; [ | rewrite IH]; reflexivity. Qed.

Lemma rev_append_app (s acc : string) :
  rev_append s acc = (rev s ++ acc)%string.
Proof.
  unfold rev. revert acc.
  induction s as [ | c s IH]; intros acc; simpl; [reflexivity | ].
  rewrite (IH (String c acc)), (IH (String c EmptyString)).
  rewrite <- append_assoc. reflexivity.
Qed.

Lemma append_empty_r (s : string) : (s ++ "")%string = s.
Proof. induction s as [ | c s IH]; simpl; [ | rewrite IH]; reflexivity. Qed.

Lemma rev_app (s t : string) : rev (s ++ t)%string = (rev t ++ rev s)%string.
Proof.
  induction s as [ | c s IH]; simpl.
  - rewrite append_empty_r. reflexivity.
  - unfold rev at 1 3. simpl. rewrite !rev_append_app, IH.
    rewrite append_assoc. reflexivity.
Qed.

Lemma rev_involutive (s : string) : rev (rev s) = s.
Proof.
  induction s as [ | c s IH]; [reflexivity | ].
  unfold rev at 2. simpl. rewrite rev_append_app, rev_app, IH. reflexivity.
Qed.

Lemma trimStart_allWhite (ws s : string) :
  allWhite ws = true -> trimStart (ws ++ s) = trimStart s.
Proof.
  induction ws as [ | c ws IH]; simpl; intros H; [reflexivity | ].
  apply andb_true_iff in H. destruct H as [Hc Hws].
  rewrite Hc. apply IH. exact Hws.
Qed.

Lemma trimStart_clean (t s : string) :
  startsClean t = true -> trimStart (t ++ s) = (t ++ s)%string.
Proof.
  destruct t as [ | c t]; simpl; [discriminate | ].
  intros H. apply negb_true_iff in H. rewrite H. reflexivity.
Qed.



Lemma allWhite_rev (s : string) : allWhite (rev s) = allWhite s.
Proof.
  assert (Happ : forall a b, allWhite (a ++ b) = allWhite a && allWhite b).
  { induction a as [ | c a IH]; intros b; simpl; [reflexivity | ].
    rewrite IH, andb_assoc. reflexivity. }
  induction s as [ | c s IH]; [reflexivity | ].
  unfold rev. simpl. rewrite rev_append_app, Happ, IH. simpl.
  rewrite andb_true_r, andb_comm. reflexivity.
Qed.



(** [trim] removes the white space around a text that neither begins nor
    ends with white space. *)
Lemma trim_around (lead trail text : string) :
  allWhite lead = true -> allWhite trail = true ->
  startsClean text = true -> startsClean (rev text) = true ->
  trim (lead ++ text ++ trail) = text.
Proof.
  intros Hlead Htrail Hstart Hend. unfold trim.
  rewrite (trimStart_allWhite _ _ Hlead), (trimStart_clean _ _ Hstart).
  unfold trimEnd. rewrite rev_app.
  rewrite trimStart_allWhite by (rewrite allWhite_rev; exact Htrail).
  rewrite <- (append_empty_r (rev text)), (trimStart_clean _ _ Hend).
  rewrite append_empty_r. apply rev_involutive.
Qed.












(** ** Commands that are too short *)



(** ** The direction *)

(** X3: for a command of at least four tokens the direction is tested
    first: the parse fails with the direction message exactly when token 1
    is neither [BUY] nor [SELL] in some letter case, whatever the leverage
    and quantity tokens are; on success [BUY] gives [LONG] and [SELL]
    gives [SHORT]. *)
Theorem direction_is_tested_first
  (cmd p0 p1 p2 p3 : string) (rest : list string) :
  split_ws (trim cmd) = p0 :: p1 :: p2 :: p3 :: rest ->
  (parseCommand_try cmd = inl {| message := msg_direction |}
   <-> validDirection p0 = false)
  /\ (forall tp, parseCommand_try cmd = inr tp ->
        (toUpperCase p0 = "BUY" /\ side tp = LONG)
        \/ (toUpperCase p0 = "SELL" /\ side tp = SHORT)).
Proof.
  intros Hparts. split.
  - rewrite (parseCommand_try_parts _ _ _ _ _ _ Hparts).
    destruct (validDirection p0); cbn [negb];
      [ | split; intros; reflexivity].
    destruct (leverageOf p2) as [n | ]; [ | split; intros H; discriminate H].
    destruct ((n <? 1) || (n >? 125)); [split; intros H; discriminate H | ].
    destruct (quantityRejected (parseFloat p3)); split; intros H;
      discriminate H.
  - intros tp Htp.
    destruct (parseCommand_try_success _ _ _ _ _ _ _ Hparts Htp)
      as (Hdir & n & _ & _ & _ & ->).
    destruct (fold_applyParam_required rest
                (requiredParams p0 p1 n (parseFloat p3))) as (-> & _).
    cbn [side requiredParams]. unfold validDirection in Hdir.
    destruct (String.eqb_spec (toUpperCase p0) "BUY") as [Hbuy | Hbuy].
    + left. split; [exact Hbuy | reflexivity].
    + right. simpl in Hdir. apply String.eqb_eq in Hdir.
      split; [exact Hdir | reflexivity].
Qed.

Lemma direction_is_tested_first_witness :
  (parseCommand_try "HODL BTCUSDT abc -1" = inl {| message := msg_direction |}
   <-> validDirection "HODL" = false)
  /\ (forall tp, parseCommand_try "HODL BTCUSDT abc -1" = inr tp ->
        (toUpperCase "HODL" = "BUY" /\ side tp = LONG)
        \/ (toUpperCase "HODL" = "SELL" /\ side tp = SHORT)).
Proof.
  apply (direction_is_tested_first "HODL BTCUSDT abc -1"
           "HODL" "BTCUSDT" "abc" "-1" []).
  reflexivity.
Defined.

(** ** The optional tokens *)

(** X4: the tokens after the fourth never make a parse fail and never
    change the direction, symbol, leverage or quantity: two commands with
    the same first four tokens fail with the same error or both succeed,
    with the same four fields. *)
Theorem optional_tokens_never_fail
  (cmd cmd' p0 p1 p2 p3 : string) (rest rest' : list string) :
  split_ws (trim cmd) = p0 :: p1 :: p2 :: p3 :: rest ->
  split_ws (trim cmd') = p0 :: p1 :: p2 :: p3 :: rest' ->
  (forall err, parseCommand_try cmd = inl err <-> parseCommand_try cmd' = inl err)
  /\ (forall tp, parseCommand_try cmd = inr tp ->
        exists tp', parseCommand_try cmd' = inr tp'
                    /\ side tp' = side tp /\ symbol tp' = symbol tp
                    /\ leverage tp' = leverage tp
                    /\ quantity tp' = quantity tp).
Proof.
  intros Hparts Hparts'.
  rewrite (parseCommand_try_parts _ _ _ _ _ _ Hparts),
    (parseCommand_try_parts _ _ _ _ _ _ Hparts').
  destruct (negb (validDirection p0)); [split; [tauto | discriminate] | ].
  destruct (leverageOf p2) as [n | ]; [ | split; [tauto | discriminate]].
  destruct ((n <? 1) || (n >? 125)); [split; [tauto | discriminate] | ].
  destruct (quantityRejected (parseFloat p3)); [split; [tauto | discriminate] | ].
  split.
  - intros err. split; discriminate.
  - intros tp H. injection H as <-. eexists. split; [reflexivity | ].
    destruct (fold_applyParam_required rest
                (requiredParams p0 p1 n (parseFloat p3)))
      as (-> & -> & -> & ->).
    destruct (fold_applyParam_required rest'
                (requiredParams p0 p1 n (parseFloat p3)))
      as (-> & -> & -> & ->).
    repeat split.
Qed.

Lemma optional_tokens_never_fail_witness :
  (forall err, parseCommand_try "BUY BTCUSDT 20x 0.01" = inl err
               <-> parseCommand_try "BUY BTCUSDT 20x 0.01 SL=oops ?? TP=" = inl err)
  /\ (forall tp, parseCommand_try "BUY BTCUSDT 20x 0.01" = inr tp ->
        exists tp',
          parseCommand_try "BUY BTCUSDT 20x 0.01 SL=oops ?? TP=" = inr tp'
          /\ side tp' = side tp /\ symbol tp' = symbol tp
          /\ leverage tp' = leverage tp /\ quantity tp' = quantity tp).
Proof.
  apply (optional_tokens_never_fail "BUY BTCUSDT 20x 0.01"
           "BUY BTCUSDT 20x 0.01 SL=oops ?? TP="
           "BUY" "BTCUSDT" "20x" "0.01" [] ["SL=oops"; "??"; "TP="]);
    reflexivity.
Defined.

Lemma applyParam_keeps (tp : TradeParams) (param : string) :
  (keepsStopLoss param = true -> stopLoss (applyParam tp param) = stopLoss tp)
  /\ (keepsTakeProfit param = true ->
      takeProfit (applyParam tp param) = takeProfit tp).
Proof.
  unfold keepsStopLoss, keepsTakeProfit, applyParam.
  destruct (startsWith param "SL="); destruct (startsWith param "TP=");
    destruct (isNaN (valueAfterEquals param));
    destruct (String.eqb (toUpperCase param) "HOLD");
    cbn; split; intros H; try reflexivity; discriminate H.
Qed.

Lemma fold_applyParam_preserved (keeps : string -> bool)
  (get : TradeParams -> option Number) (rest : list string)
  (tp : TradeParams) :
  (forall tp' param, keeps param = true ->
     get (applyParam tp' param) = get tp') ->
  forallb keeps rest = true ->
  get (fold_left applyParam rest tp) = get tp.
Proof.
  intros Hstep. revert tp.
  induction rest as [ | param rest IH]; intros tp Hall; simpl in *.
  - reflexivity.
  - apply andb_true_iff in Hall. destruct Hall as [Hp Hrest].
    rewrite (IH _ Hrest). apply Hstep. exact Hp.
Qed.

Lemma rev_cons (c : ascii) (s : string) :
  rev (String c s) = (rev s ++ String c EmptyString)%string.
Proof. unfold rev at 1. simpl. apply rev_append_app. Qed.

Lemma split_char_noEquals (v cur : string) :
  noEquals v = true ->
  split_char_from "=" cur v = [(rev cur ++ v)%string].
Proof.
  revert cur. induction v as [ | c v IH]; intros cur H; simpl.
  - rewrite append_empty_r. reflexivity.
  - simpl in H. apply andb_true_iff in H. destruct H as [Hc Hv].
    apply negb_true_iff in Hc. rewrite Hc, (IH _ Hv), rev_cons.
    rewrite <- append_assoc. reflexivity.
Qed.

(** The value of a token [SL=v] or [TP=v] whose [v] has no [=] is
    [parseFloat(v)]. *)
Lemma valueAfterEquals_key (v : string) :
  noEquals v = true ->
  valueAfterEquals ("SL=" ++ v) = parseFloat v
  /\ valueAfterEquals ("TP=" ++ v) = parseFloat v.
Proof.
  intros H. unfold valueAfterEquals, split_char. simpl.
  rewrite (split_char_noEquals v EmptyString H). split; reflexivity.
Qed.

Lemma startsWith_key (v : string) :
  startsWith ("SL=" ++ v) "SL=" = true
  /\ startsWith ("TP=" ++ v) "SL=" = false
  /\ startsWith ("TP=" ++ v) "TP=" = true.
Proof. unfold startsWith. simpl. destruct v; repeat split. Qed.

(** X5: the last well-formed [SL=] token decides [stopLoss], and the last
    well-formed [TP=] token decides [takeProfit]: tokens of the same key
    before it are overwritten, and tokens of that key after it whose
    value does not parse are ignored. *)
Theorem last_price_token_wins
  (cmd p0 p1 p2 p3 v : string) (before after : list string)
  (tp : TradeParams) :
  parseCommand_try cmd = inr tp ->
  noEquals v = true ->
  isNaN (parseFloat v) = false ->
  (split_ws (trim cmd)
     = p0 :: p1 :: p2 :: p3 :: before ++ ("SL=" ++ v)%string :: after ->
   forallb keepsStopLoss after = true ->
   stopLoss tp = Some (parseFloat v))
  /\
  (split_ws (trim cmd)
     = p0 :: p1 :: p2 :: p3 :: before ++ ("TP=" ++ v)%string :: after ->
   forallb keepsTakeProfit after = true ->
   takeProfit tp = Some (parseFloat v)).
Proof.
  intros Htp Hv Hnum.
  destruct (valueAfterEquals_key v Hv) as [Hsl Htk].
  split; intros Hparts Hafter;
    destruct (parseCommand_try_success _ _ _ _ _ _ _ Hparts Htp)
      as (_ & n & _ & _ & _ & ->);
    rewrite fold_left_app; cbn [fold_left].
  - rewrite (fold_applyParam_preserved keepsStopLoss stopLoss after _
               (fun tp' param => proj1 (applyParam_keeps tp' param)) Hafter).
    unfold applyParam.
    rewrite (proj1 (startsWith_key v)), Hsl, Hnum. reflexivity.
  - rewrite (fold_applyParam_preserved keepsTakeProfit takeProfit after _
               (fun tp' param => proj2 (applyParam_keeps tp' param)) Hafter).
    unfold applyParam.
    rewrite (proj1 (proj2 (startsWith_key v))), (proj2 (proj2 (startsWith_key v))).
    rewrite Htk, Hnum. reflexivity.
Qed.

Lemma last_price_token_wins_witness :
  (stopLoss
     {| side := LONG; symbol := "BTCUSDT"; leverage := 5;
        quantity := S754_finite false 4503599627370496 (-52);
        stopLoss := Some (S754_finite false 7036874417766400 (-45));
        takeProfit := None; hold := false |}
   = Some (parseFloat "200"))
  /\
  (takeProfit
     {| side := LONG; symbol := "BTCUSDT"; leverage := 5;
        quantity := S754_finite false 4503599627370496 (-52);
        stopLoss := None;
        takeProfit := Some (S754_finite false 7036874417766400 (-45));
        hold := false |}
   = Some (parseFloat "200")).
Proof.
  split.
  - refine (proj1 (last_price_token_wins
                     "BUY BTCUSDT 5x 1 SL=100 SL=200 SL=abc"
                     "BUY" "BTCUSDT" "5x" "1" "200" ["SL=100"] ["SL=abc"]
                     _ _ _ _) _ _); vm_compute; reflexivity.
  - refine (proj2 (last_price_token_wins
                     "BUY BTCUSDT 5x 1 TP=100 TP=200 TP=abc"
                     "BUY" "BTCUSDT" "5x" "1" "200" ["TP=100"] ["TP=abc"]
                     _ _ _ _) _ _); vm_compute; reflexivity.
Defined.

(** ** Hold *)

(** A token that reads [HOLD] in some letter case is neither an [SL=]
    nor a [TP=] token. *)
Lemma hold_token_is_no_key (param : string) :
  isHoldToken param = true ->
  startsWith param "SL=" = false /\ startsWith param "TP=" = false.
Proof.
  unfold isHoldToken. intros H. apply String.eqb_eq in H.
  destruct param as [ | c param]; [split; reflexivity | ].
  simpl in H. injection H as Hc _.
  unfold startsWith. cbn [String.prefix].
  split.
  - destruct (ascii_dec "S" c) as [<- | ]; [ | reflexivity].
    vm_compute in Hc. discriminate Hc.
  - destruct (ascii_dec "T" c) as [<- | ]; [ | reflexivity].
    vm_compute in Hc. discriminate Hc.
Qed.

Lemma applyParam_hold (tp : TradeParams) (param : string) :
  hold (applyParam tp param) = hold tp || isHoldToken param.
Proof.
  destruct (isHoldToken param) eqn:Hhold.
  - destruct (hold_token_is_no_key _ Hhold) as [Hsl Htk].
    unfold applyParam. rewrite Hsl, Htk.
    unfold isHoldToken in Hhold. rewrite Hhold. simpl.
    rewrite orb_true_r. reflexivity.
  - unfold applyParam. unfold isHoldToken in Hhold. rewrite Hhold.
    rewrite orb_false_r.
    destruct (startsWith param "SL="); destruct (startsWith param "TP=");
      destruct (negb (isNaN (valueAfterEquals param))); reflexivity.
Qed.

Lemma fold_applyParam_hold (rest : list string) (tp : TradeParams) :
  hold (fold_left applyParam rest tp) = hold tp || existsb isHoldToken rest.
Proof.
  revert tp. induction rest as [ | param rest IH]; intros tp; simpl.
  - rewrite orb_false_r. reflexivity.
  - rewrite IH, applyParam_hold, orb_assoc. reflexivity.
Qed.

(** X6: [hold] is set exactly when one of the optional tokens reads
    [HOLD] in some letter case; its place among the optional tokens does
    not matter, and no later token unsets it. *)
Theorem hold_iff_some_hold_token
  (cmd p0 p1 p2 p3 : string) (rest : list string) (tp : TradeParams) :
  split_ws (trim cmd) = p0 :: p1 :: p2 :: p3 :: rest ->
  parseCommand_try cmd = inr tp ->
  hold tp = existsb isHoldToken rest.
Proof.
  intros Hparts Htp.
  destruct (parseCommand_try_success _ _ _ _ _ _ _ Hparts Htp)
    as (_ & n & _ & _ & _ & ->).
  rewrite fold_applyParam_hold. reflexivity.
Qed.

Lemma hold_iff_some_hold_token_witness :
  hold holdParams
  = existsb isHoldToken ["SL=100"; "Hold"; "TP=200"].
Proof.
  apply (hold_iff_some_hold_token "SELL ETHUSDT 10x 0.1 SL=100 Hold TP=200"
           "SELL" "ETHUSDT" "10x" "0.1" ["SL=100"; "Hold"; "TP=200"]);
    vm_compute; reflexivity.
Defined.

(** ** What a parsed object always satisfies *)

Lemma applyParam_prices (tp : TradeParams) (param : string) :
  priceIsNumber (stopLoss tp) = true ->
  priceIsNumber (takeProfit tp) = true ->
  priceIsNumber (stopLoss (applyParam tp param)) = true
  /\ priceIsNumber (takeProfit (applyParam tp param)) = true.
Proof.
  intros Hsl Htk. unfold applyParam.
  destruct (startsWith param "SL=").
  - destruct (negb (isNaN (valueAfterEquals param))) eqn:Hv; cbn; auto.
  - destruct (startsWith param "TP=").
    + destruct (negb (isNaN (valueAfterEquals param))) eqn:Hv; cbn; auto.
    + destruct (String.eqb (toUpperCase param) "HOLD"); cbn; auto.
Qed.

Lemma fold_applyParam_prices (rest : list string) (tp : TradeParams) :
  priceIsNumber (stopLoss tp) = true ->
  priceIsNumber (takeProfit tp) = true ->
  priceIsNumber (stopLoss (fold_left applyParam rest tp)) = true
  /\ priceIsNumber (takeProfit (fold_left applyParam rest tp)) = true.
Proof.
  revert tp. induction rest as [ | param rest IH]; intros tp Hsl Htk; simpl.
  - auto.
  - destruct (applyParam_prices tp param Hsl Htk) as [Hsl' Htk'].
    apply IH; assumption.
Qed.

(** X7: every object [parseCommand] returns has a leverage in 1..125, a
    quantity above 0 (finite, or [+Infinity]), a symbol in upper case,
    and prices that are [null] or a Number other than [NaN]. *)
Theorem parsed_params_are_valid (cmd : string) (tp : TradeParams) :
  parseCommand_try cmd = inr tp ->
  1 <= leverage tp <= 125
  /\ (quantity tp = S754_infinity false
      \/ exists m e, quantity tp = S754_finite false m e)
  /\ toUpperCase (symbol tp) = symbol tp
  /\ priceIsNumber (stopLoss tp) = true
  /\ priceIsNumber (takeProfit tp) = true.
Proof.
  intros Htp.
  destruct (split_ws (trim cmd)) as [ | p0 [ | p1 [ | p2 [ | p3 rest]]]]
    eqn:Hparts;
    try (unfold parseCommand_try in Htp; rewrite Hparts in Htp;
         discriminate Htp).
  destruct (parseCommand_try_success _ _ _ _ _ _ _ Hparts Htp)
    as (_ & n & _ & Hrange & Hq & ->).
  destruct (fold_applyParam_required rest
              (requiredParams p0 p1 n (parseFloat p3)))
    as (_ & -> & -> & ->).
  destruct (fold_applyParam_prices rest
              (requiredParams p0 p1 n (parseFloat p3)) eq_refl eq_refl)
    as [Hsl Htk].
  cbn [leverage quantity symbol requiredParams].
  repeat split; try assumption.
  - apply orb_false_iff in Hrange. destruct Hrange as [H1 _].
    apply Z.ltb_ge in H1. exact H1.
  - apply orb_false_iff in Hrange. destruct Hrange as [_ H2].
    rewrite Z.gtb_ltb in H2. apply Z.ltb_ge in H2. exact H2.
  - apply quantityRejected_false_iff. exact Hq.
  - apply toUpperCase_idempotent.
Qed.

Lemma parsed_params_are_valid_witness :
  1 <= leverage longParams <= 125
  /\ (quantity longParams = S754_infinity false
      \/ exists m e, quantity longParams = S754_finite false m e)
  /\ toUpperCase (symbol longParams) = symbol longParams
  /\ priceIsNumber (stopLoss longParams) = true
  /\ priceIsNumber (takeProfit longParams) = true.
Proof.
  apply (parsed_params_are_valid "buy btcusdt 20x 0.01 SL=42000 TP=45000").
  vm_compute. reflexivity.
Defined.

(** ** The leverage token with and without its [x] *)

Lemma leverage_test_is_range (n : Z) :
  (n <? 1) || (n >? 125) = negb (inLeverageRange n).
Proof.
  unfold inLeverageRange. rewrite Z.gtb_ltb.
  destruct (Z.ltb_spec n 1); destruct (Z.ltb_spec 125 n);
    destruct (Z.leb_spec 1 n); destruct (Z.leb_spec n 125);
    simpl; try reflexivity; lia.
Qed.

Lemma span_digits_then (ds : string) (c : ascii) (r : string) :
  allDigits ds = true -> isDigit c = false ->
  span isDigit (ds ++ String c r) = (ds, String c r).
Proof.
  intros Hds Hc. induction ds as [ | d ds IH]; simpl.
  - rewrite Hc. reflexivity.
  - simpl in Hds. apply andb_true_iff in Hds. destruct Hds as [Hd Hds].
    rewrite Hd, (IH Hds). reflexivity.
Qed.

Lemma remove_first_x_none (ds : string) (r : string) :
  allDigits ds = true ->
  remove_first "x" (ds ++ r) = (ds ++ remove_first "x" r)%string.
Proof.
  induction ds as [ | c ds IH]; simpl; intros H; [reflexivity | ].
  apply andb_true_iff in H. destruct H as [Hc Hds].
  destruct (isDigit_facts c Hc) as (_ & _ & _ & Hx & _).
  rewrite Hx, (IH Hds). reflexivity.
Qed.

(** [parseInt] stops at an [X] that follows digits; [0X] alone starts a
    hexadecimal literal without digits and gives [NaN]. *)
Lemma parseInt_digits_X (ds : string) :
  allDigits ds = true -> ds <> EmptyString ->
  parseInt (ds ++ "X")
  = if String.eqb ds "0" then None else Some (digitsValue 0 ds).
Proof.
  intros Hds Hne. destruct ds as [ | c ds]; [congruence | ].
  pose proof Hds as Hall. simpl in Hds.
  apply andb_true_iff in Hds. destruct Hds as [Hc Hrest].
  destruct (isDigit_facts c Hc) as (Hws & Hminus & Hplus & _ & _).
  unfold parseInt. cbn [trimStart append]. rewrite Hws.
  unfold takeSign. rewrite Hminus, Hplus.
  destruct ds as [ | c1 ds].
  - cbn [append stripHexPrefix]. rewrite orb_true_r, andb_true_r.
    cbn [String.eqb]. destruct (Ascii.eqb_spec c "0") as [-> | Hc0].
    + reflexivity.
    + unfold decimalPrefix. cbn [span]. rewrite Hc. reflexivity.
  - simpl in Hrest. apply andb_true_iff in Hrest. destruct Hrest as [Hc1 Hds].
    destruct (isDigit_facts c1 Hc1) as (_ & _ & _ & Hx & HX).
    cbn [append stripHexPrefix]. rewrite Hx, HX, andb_false_r.
    unfold decimalPrefix.
    change (String c (String c1 (ds ++ "X")))
      with ((String c (String c1 ds)) ++ "X")%string.
    rewrite (span_digits_then (String c (String c1 ds)) "X" EmptyString Hall
               eq_refl).
    replace (String.eqb (String c (String c1 ds)) "0") with false
      by (cbn [String.eqb]; destruct (Ascii.eqb c "0"); reflexivity).
    reflexivity.
Qed.

(** X8: a leverage token made of digits, followed by [x], by [X] or by
    nothing, passes the leverage test exactly when the integer written
    lies in 1..125: the [x] is optional and its letter case is
    indifferent. *)
Theorem leverage_digits_with_any_x (ds : string) :
  allDigits ds = true -> ds <> EmptyString ->
  leverageRejected (leverageOf (ds ++ "x"))
  = negb (inLeverageRange (digitsValue 0 ds))
  /\ leverageRejected (leverageOf (ds ++ "X"))
     = negb (inLeverageRange (digitsValue 0 ds))
  /\ leverageRejected (leverageOf ds)
     = negb (inLeverageRange (digitsValue 0 ds)).
Proof.
  intros Hds Hne. unfold leverageOf. repeat split.
  - rewrite (remove_first_x_allDigits _ Hds), (parseInt_allDigits _ Hds Hne).
    apply leverage_test_is_range.
  - rewrite (remove_first_x_none _ _ Hds).
    change (remove_first "x" "X") with "X".
    rewrite (parseInt_digits_X _ Hds Hne).
    destruct (String.eqb_spec ds "0") as [-> | _]; [reflexivity | ].
    apply leverage_test_is_range.
  - rewrite <- (append_empty_r ds) at 1.
    rewrite (remove_first_x_none _ _ Hds). cbn [remove_first].
    rewrite append_empty_r, (parseInt_allDigits _ Hds Hne).
    apply leverage_test_is_range.
Qed.

Lemma leverage_digits_with_any_x_witness :
  leverageRejected (leverageOf ("125" ++ "x"))
  = negb (inLeverageRange (digitsValue 0 "125"))
  /\ leverageRejected (leverageOf ("125" ++ "X"))
     = negb (inLeverageRange (digitsValue 0 "125"))
  /\ leverageRejected (leverageOf "125")
     = negb (inLeverageRange (digitsValue 0 "125")).
Proof.
  apply (leverage_digits_with_any_x "125"); [reflexivity | discriminate].
Defined.

(** ** Letter case of direction and symbol *)

(** X9: the direction and the symbol are read in upper case: two commands
    whose first two tokens differ in letter case only, and whose other
    tokens are the same, give the same result. *)
Theorem direction_and_symbol_any_case
  (cmd cmd' p0 p0' p1 p1' p2 p3 : string) (rest : list string) :
  split_ws (trim cmd) = p0 :: p1 :: p2 :: p3 :: rest ->
  split_ws (trim cmd') = p0' :: p1' :: p2 :: p3 :: rest ->
  toUpperCase p0 = toUpperCase p0' ->
  toUpperCase p1 = toUpperCase p1' ->
  parseCommand_try cmd = parseCommand_try cmd'.
Proof.
  intros Hparts Hparts' H0 H1.
  rewrite (parseCommand_try_parts _ _ _ _ _ _ Hparts),
    (parseCommand_try_parts _ _ _ _ _ _ Hparts').
  unfold validDirection, requiredParams. rewrite H0, H1. reflexivity.
Qed.

Lemma direction_and_symbol_any_case_witness :
  parseCommand_try "Sell EthUsdt 10x 0.1 HOLD"
  = parseCommand_try "SELL ETHUSDT 10x 0.1 HOLD".
Proof.
  apply (direction_and_symbol_any_case
           "Sell EthUsdt 10x 0.1 HOLD" "SELL ETHUSDT 10x 0.1 HOLD"
           "Sell" "SELL" "EthUsdt" "ETHUSDT" "10x" "0.1" ["HOLD"]);
    reflexivity.
Defined.

(** ** The order of the requests *)

Ltac split_answers client :=
  repeat match goal with
         | |- context [futuresLeverage client ?h ?s ?l] =>
             destruct (futuresLeverage client h s l) as [? | ?]
         | |- context [futuresOrder client ?h ?r] =>
             destruct (futuresOrder client h r) as [? | ?]
         end.

(** X10: a run sends the requests of its plan in order (leverage, entry,
    stop-loss if any, take-profit if any), each after the one before was
    accepted, and stops at the first rejection; it throws that rejection,
    and otherwise returns after the whole plan was sent. No request is
    sent after a rejection, and none is sent twice. *)
Theorem run_follows_the_plan
  (client : Client) (tp : TradeParams) (w : World) :
  issued (executeTrade client tp) w
  = fst (sendUntilRejected client (requests w) (plan tp))
  /\ (forall e, result (executeTrade client tp) w = inl e
                <-> snd (sendUntilRejected client (requests w) (plan tp))
                    = Some e)
  /\ (forall o, result (executeTrade client tp) w = inr o ->
                issued (executeTrade client tp) w = plan tp).
Proof.
  rewrite executeTrade_result, executeTrade_issued.
  unfold tradeRun, conditionalRun, plan, optionalRequest.
  unfold stopLossRequest, takeProfitRequest, stopLossOrder, takeProfitOrder,
    leverageRequest, entryRequest.
  cbn [sendUntilRejected answer].
  destruct (futuresLeverage client (requests w) (symbol tp) (leverage tp))
    as [e0 | u]; cbn [fst snd].
  { repeat split; intros; congruence. }
  destruct (futuresOrder client _ (marketRequest tp)) as [e0 | o0];
    cbn [fst snd].
  { repeat split; intros; congruence. }
  destruct (hold tp); cbn [fst snd sendUntilRejected app].
  { repeat split; intros; congruence. }
  destruct (whenTruthy (stopLoss tp)) as [v | ];
    destruct (whenTruthy (takeProfit tp)) as [v' | ];
    cbn [fst snd sendUntilRejected answer app];
    rewrite <- ?app_assoc; cbn [app];
    split_answers client; cbn [fst snd app];
    repeat split; intros; congruence.
Qed.

(** X11: a run sends exactly one leverage request, at most one entry
    order, at most one stop-loss order and at most one take-profit order:
    nothing is retried, and a run has at most four requests. *)
Theorem run_never_retries
  (client : Client) (tp : TradeParams) (w : World) :
  count isLeverageCall (issued (executeTrade client tp) w) = 1%nat
  /\ (count isMarketCall (issued (executeTrade client tp) w) <= 1)%nat
  /\ (count isStopLossCall (issued (executeTrade client tp) w) <= 1)%nat
  /\ (count isTakeProfitCall (issued (executeTrade client tp) w) <= 1)%nat
  /\ (List.length (issued (executeTrade client tp) w) <= 4)%nat.
Proof.
  rewrite executeTrade_issued. unfold tradeRun, conditionalRun.
  destruct (futuresLeverage client (requests w) (symbol tp) (leverage tp))
    as [e0 | u]; cbn [fst snd]; [cbn; repeat split; lia | ].
  destruct (futuresOrder client _ (marketRequest tp)) as [e0 | o0];
    cbn [fst snd]; [cbn; repeat split; lia | ].
  destruct (hold tp); cbn [fst snd]; [cbn; repeat split; lia | ].
  destruct (whenTruthy (stopLoss tp)) as [v | ];
    destruct (whenTruthy (takeProfit tp)) as [v' | ];
    split_answers client; cbn; repeat split; lia.
Qed.

(** ** What the requests carry *)

Lemma whenTruthy_some (price : option Number) (v : Number) :
  whenTruthy price = Some v -> price = Some v /\ truthy v = true.
Proof.
  unfold whenTruthy. destruct price as [x | ]; [ | discriminate].
  destruct (truthy x) eqn:Hx; [ | discriminate].
  intros H. injection H as <-. split; [reflexivity | exact Hx].
Qed.

(** X12: every request of a run carries the symbol of the parsed object;
    the leverage request carries its leverage, and every order its
    quantity. The entry order has no trigger price; a stop-loss order is
    sent only without [hold], with [stopLoss] as trigger price, and only
    when that price is neither 0 nor [NaN]; likewise a take-profit order
    with [takeProfit]. Both conditional orders are [GTC]. *)
Theorem requests_carry_the_parameters
  (client : Client) (tp : TradeParams) (w : World) (r : Request) :
  In r (issued (executeTrade client tp) w) ->
  match r with
  | FuturesLeverage s l => s = symbol tp /\ l = leverage tp
  | FuturesOrder o =>
      req_symbol o = symbol tp /\ req_quantity o = quantity tp
      /\ match req_type o with
         | MARKET => req_stopPrice o = None /\ req_timeInForce o = None
         | STOP_MARKET =>
             hold tp = false /\ req_timeInForce o = Some "GTC"
             /\ exists v, stopLoss tp = Some v /\ truthy v = true
                          /\ req_stopPrice o = Some v
         | TAKE_PROFIT_MARKET =>
             hold tp = false /\ req_timeInForce o = Some "GTC"
             /\ exists v, takeProfit tp = Some v /\ truthy v = true
                          /\ req_stopPrice o = Some v
         end
  end.
Proof.
  rewrite executeTrade_issued. unfold tradeRun, conditionalRun.
  assert (Hlev : match leverageRequest tp with
                 | FuturesLeverage s l => s = symbol tp /\ l = leverage tp
                 | FuturesOrder _ => False
                 end) by (split; reflexivity).
  assert (Hentry : req_symbol (marketRequest tp) = symbol tp
                   /\ req_quantity (marketRequest tp) = quantity tp
                   /\ req_stopPrice (marketRequest tp) = None
                   /\ req_timeInForce (marketRequest tp) = None)
    by (repeat split).
  destruct (hold tp) eqn:Hhold;
    destruct (whenTruthy (stopLoss tp)) as [v | ] eqn:Hsl;
    destruct (whenTruthy (takeProfit tp)) as [v' | ] eqn:Htk;
    try (apply whenTruthy_some in Hsl; destruct Hsl as [Hsl Hv]);
    try (apply whenTruthy_some in Htk; destruct Htk as [Htk Hv']);
    split_answers client; cbn [fst snd In app];
    intros Hin;
    repeat match type of Hin with
           | _ \/ _ => destruct Hin as [Hin | Hin]
           end;
    try contradiction; subst r;
    unfold leverageRequest, entryRequest, conditionalRequest;
    cbn [req_symbol req_quantity req_type req_stopPrice req_timeInForce
           marketRequest];
    repeat split; eauto.
Qed.

Lemma requests_carry_the_parameters_witness :
  req_symbol (takeProfitOrder longParams
                (S754_finite false 6184752906240000 (-37)))
  = symbol longParams
  /\ req_quantity (takeProfitOrder longParams
                     (S754_finite false 6184752906240000 (-37)))
     = quantity longParams
  /\ hold longParams = false
  /\ req_timeInForce (takeProfitOrder longParams
                        (S754_finite false 6184752906240000 (-37)))
     = Some "GTC"
  /\ exists v, takeProfit longParams = Some v /\ truthy v = true
               /\ req_stopPrice (takeProfitOrder longParams
                                   (S754_finite false 6184752906240000 (-37)))
                  = Some v.
Proof.
  apply (requests_carry_the_parameters acceptAll longParams emptyWorld
           (takeProfitRequest longParams
              (S754_finite false 6184752906240000 (-37)))).
  vm_compute. right. right. right. left. reflexivity.
Defined.

(** ** The answer of processCommand *)

(** X13: [processCommand] never throws: it answers [true] exactly when the
    command parses and [executeTrade] returns on the parsed object, and
    [false] otherwise. It sends what [executeTrade] sends for a command
    that parses, and nothing for one that does not. *)
Theorem processCommand_answers
  (client : Client) (cmd : string) (w : World) :
  exists b,
    result (processCommand client cmd) w = inr b
    /\ (b = true
        <-> exists tp o, parseCommand_try cmd = inr tp
                         /\ result (executeTrade client tp) w = inr o)
    /\ (forall tp, parseCommand_try cmd = inr tp ->
          issued (processCommand client cmd) w
          = issued (executeTrade client tp) w)
    /\ (forall err, parseCommand_try cmd = inl err ->
          issued (processCommand client cmd) w = []).
Proof.
  pose proof (processCommand_run client cmd w) as Hrun.
  destruct (parseCommand_try cmd) as [err | tp].
  - destruct Hrun as [Hiss Hres]. exists false.
    split; [exact Hres | ]. split; [ | split].
    + split; [discriminate | ].
      intros (tp & o & H & _). discriminate H.
    + intros tp H. discriminate H.
    + intros err' _. exact Hiss.
  - destruct Hrun as [Hiss Hres].
    exists (negb (rejected (snd (tradeRun client tp (requests w))))).
    split; [exact Hres | ]. split; [ | split].
    + rewrite <- (executeTrade_result client tp w).
      destruct (result (executeTrade client tp) w) as [e | o] eqn:Hr;
        cbn [rejected negb]; split.
      * discriminate.
      * intros (tp' & o & H & Ho). injection H as H. subst tp'.
        rewrite Hr in Ho. discriminate Ho.
      * intros _. exists tp, o. split; [reflexivity | exact Hr].
      * reflexivity.
    + intros tp' H. injection H as H. subst tp'.
      rewrite executeTrade_issued. exact Hiss.
    + intros err H. discriminate H.
Qed.

(** ** The console *)

Ltac written_lines :=
  cbn [fst snd requests console negb];
  rewrite <- ?app_assoc; cbn [app]; rewrite skipn_length_app.

(** X14: a run that returns writes no [console.error] line. A run that
    throws writes error lines only after the rejection, each of them with
    the message of the rejection, and the last line written is the one of
    [executeTrade] itself. *)
Theorem failures_are_logged
  (client : Client) (tp : TradeParams) (w : World) :
  (forall o, result (executeTrade client tp) w = inr o ->
     filter isErrorLine (written (executeTrade client tp) w) = [])
  /\ (forall e, result (executeTrade client tp) w = inl e ->
        last (written (executeTrade client tp) w) (console_log [])
        = tradeErrorLine e
        /\ forall line, In line (written (executeTrade client tp) w) ->
             isErrorLine line = true -> In (Str (message e)) (pieces line)).
Proof.
  unfold written, result. run_js.
  destruct (futuresLeverage client (requests w) (symbol tp) (leverage tp))
    as [e0 | u]; [ | destruct (futuresOrder client _ (marketRequest tp))
                       as [e0 | o0];
                     [ | destruct (hold tp);
                         [ | destruct (whenTruthy (stopLoss tp)) as [v | ];
                             destruct (whenTruthy (takeProfit tp)) as [v' | ];
                             cbn [fst snd requests console negb];
                             split_answers client ] ] ];
    written_lines; cbn [negb fst snd requests console];
    (split;
     [ intros ? Ho; first [discriminate Ho | reflexivity]
     | intros ? He;
       first
         [ discriminate He
         | injection He as <-;
           (split;
            [ reflexivity
            | intros line Hin Herr; cbn [In] in Hin;
              repeat match type of Hin with
                     | _ \/ _ => destruct Hin as [Hin | Hin]
                     end;
              try contradiction; subst line; try discriminate Herr;
              cbn [pieces In]; auto 6 ]) ] ]).
Qed.

Lemma failures_are_logged_witness :
  filter isErrorLine (written (executeTrade acceptAll longParams) emptyWorld)
  = []
  /\ last (written (executeTrade stopLossRejecting longParams) emptyWorld)
       (console_log [])
     = tradeErrorLine {| message := "Order would immediately trigger." |}.
Proof.
  split.
  - apply (proj1 (failures_are_logged acceptAll longParams emptyWorld)
             {| orderId := 1 |}).
    reflexivity.
  - apply (proj2 (failures_are_logged stopLossRejecting longParams emptyWorld)
             {| message := "Order would immediately trigger." |}).
    reflexivity.
Defined.

(** ** Amounts written as zero *)

Lemma allZeros_allDigits (s : string) :
  allZeros s = true -> allDigits s = true.
Proof.
  induction s as [ | c s IH]; simpl; intros H; [reflexivity | ].
  apply andb_true_iff in H. destruct H as [Hc Hs].
  apply Ascii.eqb_eq in Hc. subst c. rewrite (IH Hs). reflexivity.
Qed.

Lemma digitsValue_zeros (s : string) :
  allZeros s = true -> digitsValue 0 s = 0.
Proof.
  induction s as [ | c s IH]; simpl; intros H; [reflexivity | ].
  apply andb_true_iff in H. destruct H as [Hc Hs].
  apply Ascii.eqb_eq in Hc. subst c. exact (IH Hs).
Qed.

Lemma allZeros_app (a b : string) :
  allZeros a = true -> allZeros b = true -> allZeros (a ++ b) = true.
Proof.
  induction a as [ | c a IH]; simpl; intros Ha Hb; [exact Hb | ].
  apply andb_true_iff in Ha. destruct Ha as [Hc Ha].
  rewrite Hc. apply IH; assumption.
Qed.

(** The zeros at the head of a text, when what follows is not a digit:
    they are also its digits. *)
Lemma span_zeros (body ip r : string) :
  span (fun c => Ascii.eqb c "0") body = (ip, r) ->
  match r with
  | EmptyString => True
  | String c _ => isDigit c = false
  end ->
  allZeros ip = true /\ body = (ip ++ r)%string /\ span isDigit body = (ip, r).
Proof.
  revert ip r. induction body as [ | c body IH]; intros ip r; simpl.
  - intros H _. injection H as <- <-. repeat split.
  - destruct (Ascii.eqb_spec c "0") as [-> | Hc].
    + destruct (span (fun c => Ascii.eqb c "0") body) as [ip' r'] eqn:Hspan.
      intros H Hr. injection H as <- <-.
      destruct (IH ip' r' eq_refl Hr) as (Hz & Hbody & Hd).
      simpl. rewrite Hz, Hd, <- Hbody. repeat split.
    + intros H Hr. injection H as <- <-. simpl in Hr. rewrite Hr.
      repeat split.
Qed.

(** [parseFloat] of an amount written as zero is [+0] or [-0]. *)
Lemma parseFloat_zero_text (s : string) :
  isZeroText s = true -> notZero (parseFloat s) = false.
Proof.
  assert (Htrim : forall body ip r,
             span (fun c => Ascii.eqb c "0") body = (ip, r) ->
             ip <> EmptyString ->
             exists body', body = String "0" body').
  { intros body ip r. destruct body as [ | c body]; simpl.
    - intros H Hne. injection H as <- <-. congruence.
    - destruct (Ascii.eqb_spec c "0") as [-> | Hc].
      + intros _ _. eexists. reflexivity.
      + intros H Hne. injection H as <- <-. congruence. }
  intros H.
  assert (Hclean : trimStart s = s).
  { rewrite <- (append_empty_r s). apply trimStart_clean.
    revert H. unfold isZeroText, takeSign.
    destruct s as [ | c s]; [discriminate | ].
    destruct (Ascii.eqb_spec c "-") as [-> | _]; [reflexivity | ].
    destruct (Ascii.eqb_spec c "+") as [-> | _]; [reflexivity | ].
    cbn [span]. destruct (Ascii.eqb_spec c "0") as [-> | _];
      [reflexivity | discriminate]. }
  revert H. unfold isZeroText, parseFloat.
  intros H. rewrite Hclean.
  destruct (takeSign s) as [neg body].
  destruct (span (fun c => Ascii.eqb c "0") body) as [ip r] eqn:Hspan.
  apply andb_true_iff in H. destruct H as [Hne Hr].
  apply negb_true_iff, String.eqb_neq in Hne.
  destruct (Htrim _ _ _ Hspan Hne) as [body' Hbody].
  assert (Hinf : startsWith body "Infinity" = false)
    by (rewrite Hbody; reflexivity).
  rewrite Hinf.
  destruct r as [ | c fp].
  - destruct (span_zeros _ _ _ Hspan I) as (Hz & _ & ->).
    cbv beta iota.
    pose proof (digitsValue_zeros _ Hz) as Hval.
    destruct ip as [ | c0 ip0]; [congruence | ].
    rewrite append_empty_r, Hval. reflexivity.
  - apply andb_true_iff in Hr. destruct Hr as [Hc Hfp].
    apply Ascii.eqb_eq in Hc. subst c.
    destruct (span_zeros _ _ _ Hspan eq_refl) as (Hz & _ & ->).
    cbv beta iota. change (Ascii.eqb "." ".") with true. cbv beta iota.
    rewrite (span_allDigits _ (allZeros_allDigits _ Hfp)).
    pose proof (digitsValue_zeros _ (allZeros_app _ _ Hz Hfp)) as Hval.
    destruct ip as [ | c0 ip0]; [congruence | ].
    cbv beta iota. rewrite Hval. reflexivity.
Qed.

(** ** The read methods *)

Lemma logEach_run (positions : list Position) (w : World) :
  logEach positions w
  = ({| requests := requests w;
        console := console w ++ map positionLine positions |}, inr tt).
Proof.
  revert w. induction positions as [ | pos rest IH]; intros w.
  - simpl. unfold ret. rewrite app_nil_r. destruct w; reflexivity.
  - cbn [logEach map]. unfold bind, log. rewrite IH.
    cbn [requests console]. rewrite <- app_assoc. reflexivity.
Qed.

(** The positions kept by [getOpenPositions]. *)
Lemma getOpenPositions_run (readings : Readings) (w : World) :
  match futuresPositionRisk readings with
  | inr positions =>
      snd (getOpenPositions readings w)
      = inr (filter (fun pos => notZero (parseFloat (positionAmt pos)))
               positions)
  | inl e => snd (getOpenPositions readings w) = inl e
  end
  /\ requests (fst (getOpenPositions readings w)) = requests w.
Proof.
  unfold getOpenPositions, tryCatch, bind, await, logError, throw.
  destruct (futuresPositionRisk readings) as [e | positions].
  - split; reflexivity.
  - unfold log. cbn [fst snd requests console].
    destruct (Nat.eqb _ 0).
    + split; reflexivity.
    + rewrite logEach_run. split; reflexivity.
Qed.

Lemma getAccountInfo_run (readings : Readings) (w : World) :
  snd (getAccountInfo readings w) = futuresAccountInfo readings
  /\ requests (fst (getAccountInfo readings w)) = requests w.
Proof.
  unfold getAccountInfo, tryCatch, bind, await, logError, throw, log, ret.
  destruct (futuresAccountInfo readings) as [e | info]; split; reflexivity.
Qed.

(** X15: when the exchange answers, [getOpenPositions] returns, in the
    order received, exactly the positions whose amount does not read as
    zero: an amount written as zero in any form ([0], [0.000], [-0.0]) is
    dropped, and an amount that does not start with a number is kept,
    since [NaN !== 0]. No order request is sent. *)
Theorem open_positions_are_the_nonzero_ones
  (readings : Readings) (positions : list Position) (w : World) :
  futuresPositionRisk readings = inr positions ->
  exists out,
    result (getOpenPositions readings) w = inr out
    /\ (exists keep, out = filter keep positions)
    /\ (forall p, In p out
                  <-> In p positions
                      /\ notZero (parseFloat (positionAmt p)) = true)
    /\ (forall p, isZeroText (positionAmt p) = true -> ~ In p out)
    /\ (forall p, In p positions ->
                  isNaN (parseFloat (positionAmt p)) = true -> In p out)
    /\ issued (getOpenPositions readings) w = [].
Proof.
  intros Hans.
  exists (filter (fun pos => notZero (parseFloat (positionAmt pos))) positions).
  assert (Hrun :
            getOpenPositions readings w
            = ({| requests := requests w;
                  console :=
                    (console w ++ [console_log [Str (LF ++ "📊 Открытые позиции:")]])
                    ++ (if Nat.eqb
                             (List.length
                                (filter (fun pos =>
                                           notZero (parseFloat (positionAmt pos)))
                                   positions)) 0
                        then [console_log [Str "Нет открытых позиций"]]
                        else map positionLine
                               (filter (fun pos =>
                                          notZero (parseFloat (positionAmt pos)))
                                  positions)) |},
               inr (filter (fun pos => notZero (parseFloat (positionAmt pos)))
                      positions))).
  { unfold getOpenPositions, tryCatch, bind, await. rewrite Hans.
    unfold log at 1. cbn [fst snd requests console].
    destruct (Nat.eqb _ 0).
    - reflexivity.
    - rewrite logEach_run. reflexivity. }
  unfold result, issued. rewrite Hrun. cbn [fst snd requests].
  split; [reflexivity | ]. split; [eexists; reflexivity | ].
  split; [intros p; apply filter_In | ].
  split; [ | split].
  - intros p Hz Hin. apply filter_In in Hin. destruct Hin as [_ Hnz].
    rewrite (parseFloat_zero_text _ Hz) in Hnz. discriminate Hnz.
  - intros p Hin Hnan. apply filter_In. split; [exact Hin | ].
    destruct (parseFloat (positionAmt p)); try discriminate Hnan; reflexivity.
  - apply skipn_all.
Qed.

Lemma open_positions_are_the_nonzero_ones_witness :
  exists out,
    result (getOpenPositions exampleReadings) emptyWorld = inr out
    /\ (exists keep, out = filter keep examplePositions)
    /\ (forall p, In p out
                  <-> In p examplePositions
                      /\ notZero (parseFloat (positionAmt p)) = true)
    /\ (forall p, isZeroText (positionAmt p) = true -> ~ In p out)
    /\ (forall p, In p examplePositions ->
                  isNaN (parseFloat (positionAmt p)) = true -> In p out)
    /\ issued (getOpenPositions exampleReadings) emptyWorld = [].
Proof.
  apply (open_positions_are_the_nonzero_ones exampleReadings examplePositions
           emptyWorld).
  reflexivity.
Defined.

(** X16: after its heading, [getOpenPositions] writes one console line
    for each position it returns, in order, or the line for no open
    position when it returns none; it writes nothing else. *)
Theorem open_positions_console
  (readings : Readings) (positions out : list Position) (w : World) :
  futuresPositionRisk readings = inr positions ->
  result (getOpenPositions readings) w = inr out ->
  written (getOpenPositions readings) w
  = console_log [Str (LF ++ "📊 Открытые позиции:")]
    :: match out with
       | [] => [console_log [Str "Нет открытых позиций"]]
       | _ :: _ => map positionLine out
       end.
Proof.
  intros Hans. unfold result, written.
  unfold getOpenPositions, tryCatch, bind, await. rewrite Hans.
  unfold log. cbn [fst snd requests console].
  destruct (filter (fun pos => notZero (parseFloat (positionAmt pos))) positions)
    as [ | p ps] eqn:Hopen; cbn [List.length Nat.eqb].
  - unfold ret. cbn [fst snd requests console].
    intros H. injection H as <-.
    rewrite <- app_assoc. apply skipn_length_app.
  - rewrite logEach_run. unfold ret. cbn [fst snd requests console].
    intros H. injection H as <-.
    rewrite <- app_assoc. apply skipn_length_app.
Qed.

Lemma open_positions_console_witness :
  written (getOpenPositions exampleReadings) emptyWorld
  = console_log [Str (LF ++ "📊 Открытые позиции:")]
    :: map positionLine
         [ {| pos_symbol := "ETHUSDT"; positionAmt := "-0.5";
              unRealizedProfit := "1.25" |} ].
Proof.
  apply (open_positions_console exampleReadings examplePositions
           [ {| pos_symbol := "ETHUSDT"; positionAmt := "-0.5";
                unRealizedProfit := "1.25" |} ] emptyWorld);
    reflexivity.
Defined.

(** X17: when the exchange rejects a read request, each read method
    writes one [console.error] line with the message of the rejection
    and throws the rejection unchanged; nothing is returned and no order
    request is sent. *)
Theorem read_failures_are_rethrown
  (readings : Readings) (symbol : string) (w : World) (e : JsError) :
  (futuresPrices readings symbol = inl e ->
   result (getCurrentPrice readings symbol) w = inl e
   /\ written (getCurrentPrice readings symbol) w
      = [console_error [Str "❌ Ошибка получения цены для "; Str symbol;
                        Str ":"; Str (message e)]]
   /\ issued (getCurrentPrice readings symbol) w = [])
  /\ (futuresAccountInfo readings = inl e ->
      result (getAccountInfo readings) w = inl e
      /\ written (getAccountInfo readings) w
         = [console_error [Str "❌ Ошибка получения информации об аккаунте:";
                           Str (message e)]]
      /\ issued (getAccountInfo readings) w = [])
  /\ (futuresPositionRisk readings = inl e ->
      result (getOpenPositions readings) w = inl e
      /\ written (getOpenPositions readings) w
         = [console_error [Str "❌ Ошибка получения открытых позиций:";
                           Str (message e)]]
      /\ issued (getOpenPositions readings) w = []).
Proof.
  unfold result, written, issued, getCurrentPrice, getAccountInfo,
    getOpenPositions, tryCatch, bind, await, logError, throw.
  repeat split; rewrite H; cbn [fst snd requests console];
    first [reflexivity | apply skipn_length_app | apply skipn_all].
Qed.

Lemma read_failures_are_rethrown_witness :
  (result (getCurrentPrice failingReadings "BTCUSDT") emptyWorld
   = inl {| message := "Invalid API-key." |}
   /\ written (getCurrentPrice failingReadings "BTCUSDT") emptyWorld
      = [console_error [Str "❌ Ошибка получения цены для "; Str "BTCUSDT";
                        Str ":"; Str "Invalid API-key."]]
   /\ issued (getCurrentPrice failingReadings "BTCUSDT") emptyWorld = [])
  /\ (result (getAccountInfo failingReadings) emptyWorld
      = inl {| message := "Invalid API-key." |}
      /\ written (getAccountInfo failingReadings) emptyWorld
         = [console_error [Str "❌ Ошибка получения информации об аккаунте:";
                           Str "Invalid API-key."]]
      /\ issued (getAccountInfo failingReadings) emptyWorld = [])
  /\ (result (getOpenPositions failingReadings) emptyWorld
      = inl {| message := "Invalid API-key." |}
      /\ written (getOpenPositions failingReadings) emptyWorld
         = [console_error [Str "❌ Ошибка получения открытых позиций:";
                           Str "Invalid API-key."]]
      /\ issued (getOpenPositions failingReadings) emptyWorld = []).
Proof.
  pose proof (read_failures_are_rethrown failingReadings "BTCUSDT" emptyWorld
                {| message := "Invalid API-key." |}) as (H1 & H2 & H3).
  split; [apply H1; reflexivity | ].
  split; [apply H2; reflexivity | apply H3; reflexivity].
Defined.

(** X18: when the exchange answers, [getCurrentPrice] never throws and
    writes nothing; the price it returns is [NaN] exactly when the answer
    has no entry for the symbol or the entry does not start with a
    number. *)
Theorem current_price_of_missing_symbol
  (readings : Readings) (symbol : string) (w : World)
  (ticker : string -> option string) :
  futuresPrices readings symbol = inr ticker ->
  exists price,
    result (getCurrentPrice readings symbol) w = inr price
    /\ (isNaN price = true
        <-> ticker symbol = None
            \/ exists text, ticker symbol = Some text
                            /\ isNaN (parseFloat text) = true)
    /\ written (getCurrentPrice readings symbol) w = [].
Proof.
  intros Hans. exists (parseFloatOpt (ticker symbol)).
  unfold result, written, getCurrentPrice, tryCatch, bind, await, ret.
  rewrite Hans. cbn [fst snd console].
  split; [reflexivity | ]. split; [ | apply skipn_all].
  unfold parseFloatOpt. destruct (ticker symbol) as [text | ]; split.
  - intros H. right. exists text. split; [reflexivity | exact H].
  - intros [H | (text' & H & Hnan)]; [discriminate H | ].
    injection H as <-. exact Hnan.
  - intros _. left. reflexivity.
  - intros _. reflexivity.
Qed.

Lemma current_price_of_missing_symbol_witness :
  exists price,
    result (getCurrentPrice exampleReadings "DOGEUSDT") emptyWorld = inr price
    /\ (isNaN price = true
        <-> (if String.eqb "DOGEUSDT" "BTCUSDT" then Some "42000.10" else None)
            = None
            \/ exists text,
                 (if String.eqb "DOGEUSDT" "BTCUSDT" then Some "42000.10"
                  else None) = Some text
                 /\ isNaN (parseFloat text) = true)
    /\ written (getCurrentPrice exampleReadings "DOGEUSDT") emptyWorld = [].
Proof.
  apply (current_price_of_missing_symbol exampleReadings "DOGEUSDT" emptyWorld
           (fun symbol =>
              if String.eqb symbol "BTCUSDT" then Some "42000.10" else None)).
  reflexivity.
Defined.

(** ** The chat restriction *)

(** X19: with the first entry script, an update is refused exactly when
    [TELEGRAM_ALLOWED_CHAT_ID] is set, not blank, reads as a Number that
    is neither [NaN] nor 0, and the chat of the update is not that
    Number. In every other case, an unset, blank, non-numeric or zero
    value included, every chat is let through. *)
Theorem access_is_denied_iff (value : option string) (chatId : option Number) :
  restrictAccess (chatIdOfEnv value) chatId = ReplyDenied
  <-> exists s, value = Some s
                /\ trim s <> EmptyString
                /\ isNaN (toNumber s) = false
                /\ notZero (toNumber s) = true
                /\ sameChat chatId (Some (toNumber s)) = false.
Proof.
  unfold restrictAccess, chatIdOfEnv. split.
  - destruct value as [s | ]; [ | discriminate].
    destruct (String.eqb_spec s EmptyString) as [-> | Hs];
      cbn [negb andb]; [discriminate | ].
    destruct (String.eqb_spec (trim s) EmptyString) as [Ht | Ht];
      cbn [negb]; [discriminate | ].
    destruct (isNaN (toNumber s)) eqn:Hnan; cbn [negb idIsSet];
      [discriminate | ].
    destruct (truthy (toNumber s)) eqn:Htruthy; cbn [negb];
      [ | discriminate].
    destruct (sameChat chatId (Some (toNumber s))) eqn:Hsame;
      [discriminate | ].
    intros _. exists s. repeat split; try assumption.
    destruct (toNumber s); try discriminate; reflexivity.
  - intros (s & -> & Ht & Hnan & Hnz & Hsame).
    assert (Hs : String.eqb s EmptyString = false).
    { apply String.eqb_neq. intros ->. apply Ht. reflexivity. }
    apply String.eqb_neq in Ht. rewrite Hs, Ht, Hnan. cbn [negb andb idIsSet].
    assert (Htruthy : truthy (toNumber s) = true)
      by (destruct (toNumber s); try discriminate; reflexivity).
    rewrite Htruthy, Hsame. reflexivity.
Qed.

(** ** The chat handlers *)

Lemma processCommand_never_throws (client : Client) (cmd : string) (w : World) :
  exists ok, snd (processCommand client cmd w) = inr ok.
Proof.
  pose proof (processCommand_run client cmd w) as Hrun. unfold result in Hrun.
  destruct (parseCommand_try cmd); destruct Hrun as [_ ->]; eexists;
    reflexivity.
Qed.

(** X20: for a text that is not a slash command and whose acknowledgement
    Telegram accepts, the text handler sends to the exchange what
    [processCommand] sends on the trimmed text, then replies with the
    success text when [processCommand] answers [true] and with the
    invalid-format text when it answers [false], also when the command
    parsed and the exchange rejected a request. The execution-error reply
    is sent only when Telegram rejects that second reply. *)
Theorem text_handler_replies
  (client : Client) (telegram : list string -> string -> JsError + unit)
  (describe : JsError -> string) (messageText : string) (c : Chat) :
  startsWith (trim messageText) "/" = false ->
  telegram (replies c) ackText = inr tt ->
  exists ok,
    result (processCommand client (trim messageText)) (chat_world c) = inr ok
    /\ botIssued (onText client telegram describe messageText) c
       = issued (processCommand client (trim messageText)) (chat_world c)
    /\ match telegram (replies c ++ [ackText]) (verdictText ok) with
       | inr _ =>
           botReplies (onText client telegram describe messageText) c
           = [ackText; verdictText ok]
           /\ botResult (onText client telegram describe messageText) c
              = inr tt
       | inl e =>
           botReplies (onText client telegram describe messageText) c
           = [ackText; verdictText ok; commandErrorText describe e]
           /\ botResult (onText client telegram describe messageText) c
              = telegram (replies c ++ [ackText; verdictText ok])
                  (commandErrorText describe e)
       end.
Proof.
  intros Hslash Hack. destruct c as [w0 sent].
  cbn [chat_world replies] in *.
  destruct (processCommand_never_throws client (trim messageText) w0)
    as [ok Hok].
  exists ok. split; [exact Hok | ].
  unfold botIssued, botReplies, botResult, issued, onText.
  rewrite Hslash. unfold botBind, botTry, reply, liftJs.
  cbn [chat_world replies fst snd].
  fold ackText doneText badFormatText. rewrite Hack.
  destruct (processCommand client (trim messageText) w0) as [w' r].
  cbn [snd] in Hok. subst r. cbn [chat_world replies fst snd].
  destruct ok;
    cbv beta iota zeta delta [chat_world replies fst snd verdictText];
    (match goal with
     | |- context [telegram (sent ++ [ackText]) ?t] =>
         destruct (telegram (sent ++ [ackText]) t) as [e | u]
     end;
     cbv beta iota zeta delta [chat_world replies fst snd];
     rewrite <- !app_assoc; cbn [app];
     (split; [reflexivity | ]);
     (split; [apply skipn_length_app | ]);
     [ reflexivity | destruct u; reflexivity ]).
Qed.

Lemma text_handler_replies_witness :
  exists ok,
    result (processCommand stopLossRejecting
              (trim " BUY BTCUSDT 20x 0.01 SL=42000 TP=45000 "))
      (chat_world emptyChat) = inr ok
    /\ botIssued (onText stopLossRejecting telegramAccepts message
                    " BUY BTCUSDT 20x 0.01 SL=42000 TP=45000 ") emptyChat
       = issued (processCommand stopLossRejecting
                   (trim " BUY BTCUSDT 20x 0.01 SL=42000 TP=45000 "))
           (chat_world emptyChat)
    /\ match telegramAccepts (replies emptyChat ++ [ackText]) (verdictText ok)
       with
       | inr _ =>
           botReplies (onText stopLossRejecting telegramAccepts message
                         " BUY BTCUSDT 20x 0.01 SL=42000 TP=45000 ") emptyChat
           = [ackText; verdictText ok]
           /\ botResult (onText stopLossRejecting telegramAccepts message
                           " BUY BTCUSDT 20x 0.01 SL=42000 TP=45000 ")
                emptyChat = inr tt
       | inl e =>
           botReplies (onText stopLossRejecting telegramAccepts message
                         " BUY BTCUSDT 20x 0.01 SL=42000 TP=45000 ") emptyChat
           = [ackText; verdictText ok; commandErrorText message e]
           /\ botResult (onText stopLossRejecting telegramAccepts message
                           " BUY BTCUSDT 20x 0.01 SL=42000 TP=45000 ")
                emptyChat
              = telegramAccepts (replies emptyChat ++ [ackText; verdictText ok])
                  (commandErrorText message e)
       end.
Proof.
  apply (text_handler_replies stopLossRejecting telegramAccepts message
           " BUY BTCUSDT 20x 0.01 SL=42000 TP=45000 " emptyChat);
    reflexivity.
Defined.

(** The entry order is placed, the stop-loss order is rejected, and the
    chat is told that the format of the command is invalid. *)
Example rejected_stop_loss_is_reported_as_bad_format :
  botIssued (onText stopLossRejecting telegramAccepts message
               "BUY BTCUSDT 20x 0.01 SL=42000 TP=45000") emptyChat
  = [leverageRequest longParams; entryRequest longParams;
     stopLossRequest longParams (S754_finite false 5772436045824000 (-37))]
  /\ botReplies (onText stopLossRejecting telegramAccepts message
                   "BUY BTCUSDT 20x 0.01 SL=42000 TP=45000") emptyChat
     = [ackText; badFormatText].
Proof. split; vm_compute; reflexivity. Qed.

(** X21: the text handler sends nothing to the exchange for a text that
    starts with a slash once trimmed, for which it does not reply either,
    and nothing when Telegram rejects the acknowledgement, in which case
    the handler ends with that rejection. *)
Theorem no_trade_without_acknowledgement
  (client : Client) (telegram : list string -> string -> JsError + unit)
  (describe : JsError -> string) (messageText : string) (c : Chat) :
  (startsWith (trim messageText) "/" = true ->
   botIssued (onText client telegram describe messageText) c = []
   /\ botReplies (onText client telegram describe messageText) c = []
   /\ botResult (onText client telegram describe messageText) c = inr tt)
  /\ (forall e,
        startsWith (trim messageText) "/" = false ->
        telegram (replies c) ackText = inl e ->
        botIssued (onText client telegram describe messageText) c = []
        /\ botReplies (onText client telegram describe messageText) c
           = [ackText]
        /\ botResult (onText client telegram describe messageText) c = inl e).
Proof.
  unfold botIssued, botReplies, botResult. split.
  - intros Hslash. unfold onText. rewrite Hslash. unfold botRet.
    cbn [fst snd]. repeat split; apply skipn_all.
  - intros e Hslash Hack.
    assert (Hrun : onText client telegram describe messageText c
                   = ({| chat_world := chat_world c;
                         replies := replies c ++ [ackText] |}, inl e)).
    { unfold onText. rewrite Hslash. unfold botBind. unfold reply at 1.
      fold ackText. rewrite Hack. reflexivity. }
    rewrite Hrun. cbn [fst snd chat_world replies].
    repeat split; [apply skipn_all | apply skipn_length_app].
Qed.

Lemma no_trade_without_acknowledgement_witness :
  (botIssued (onText acceptAll telegramAccepts message " /start") emptyChat = []
   /\ botReplies (onText acceptAll telegramAccepts message " /start") emptyChat
      = []
   /\ botResult (onText acceptAll telegramAccepts message " /start") emptyChat
      = inr tt)
  /\ (botIssued (onText acceptAll
                   (telegramRejects (fun _ => true) "Forbidden") message
                   "BUY BTCUSDT 20x 0.01") emptyChat = []
      /\ botReplies (onText acceptAll
                       (telegramRejects (fun _ => true) "Forbidden") message
                       "BUY BTCUSDT 20x 0.01") emptyChat = [ackText]
      /\ botResult (onText acceptAll
                      (telegramRejects (fun _ => true) "Forbidden") message
                      "BUY BTCUSDT 20x 0.01") emptyChat
         = inl {| message := "Forbidden" |}).
Proof.
  split.
  - apply (proj1 (no_trade_without_acknowledgement acceptAll telegramAccepts
                    message " /start" emptyChat)).
    reflexivity.
  - apply (proj2 (no_trade_without_acknowledgement acceptAll
                    (telegramRejects (fun _ => true) "Forbidden") message
                    "BUY BTCUSDT 20x 0.01" emptyChat)
             {| message := "Forbidden" |}); reflexivity.
Defined.

(** X22: when Telegram accepts the reply, the handlers of [/positions]
    and [/balance] reply exactly once and send no order request:
    [/positions] lists the positions [getOpenPositions] returns, or says
    that there is none; [/balance] shows the two balances; and when the
    exchange rejects the read request the reply carries the message of
    the rejection. *)
Theorem read_handlers_reply_once
  (readings : Readings) (describe : JsError -> string) (c : Chat) :
  (botReplies (onPositions readings telegramAccepts describe) c
   = [match futuresPositionRisk readings with
      | inr positions =>
          positionsText
            (filter (fun pos => notZero (parseFloat (positionAmt pos)))
               positions)
      | inl e => ("❌ Ошибка получения позиций: " ++ errorText describe e)%string
      end]
   /\ botResult (onPositions readings telegramAccepts describe) c = inr tt
   /\ botIssued (onPositions readings telegramAccepts describe) c = [])
  /\
  (botReplies (onBalance readings telegramAccepts describe) c
   = [match futuresAccountInfo readings with
      | inr info => balanceText info
      | inl e => ("❌ Ошибка получения баланса: " ++ errorText describe e)%string
      end]
   /\ botResult (onBalance readings telegramAccepts describe) c = inr tt
   /\ botIssued (onBalance readings telegramAccepts describe) c = []).
Proof.
  destruct c as [w0 sent].
  unfold botReplies, botResult, botIssued, onPositions, onBalance.
  unfold botBind, botTry, liftJs, reply, botRet, telegramAccepts.
  cbn [chat_world replies].
  destruct (getOpenPositions_run readings w0) as [Hpos Hreq].
  destruct (getAccountInfo_run readings w0) as [Hacc Hreq'].
  destruct (getOpenPositions readings w0) as [w1 r1].
  destruct (getAccountInfo readings w0) as [w2 r2].
  cbn [fst snd] in *. subst r2.
  split.
  - destruct (futuresPositionRisk readings) as [e | positions]; subst r1;
      cbv beta iota zeta delta [chat_world replies fst snd].
    + rewrite Hreq. repeat split; [apply skipn_length_app | apply skipn_all].
    + destruct (filter _ positions) as [ | p ps];
        cbn [List.length Nat.eqb positionsText];
        cbv beta iota zeta delta [chat_world replies fst snd];
        rewrite Hreq;
        repeat split; first [apply skipn_length_app | apply skipn_all].
  - destruct (futuresAccountInfo readings) as [e | info];
      cbv beta iota zeta delta [chat_world replies fst snd];
      rewrite Hreq';
      repeat split; first [apply skipn_length_app | apply skipn_all].
Qed.

(** ** The forum watcher *)

Lemma num_is_finite (envVal : option string) (n : Number) :
  num envVal = Some n -> isFinite n = true.
Proof.
  unfold num. destruct envVal as [s | ]; [ | discriminate].
  destruct (String.eqb (trim s) EmptyString); [discriminate | ].
  destruct (isFinite (toNumber s)) eqn:Hfin; [ | discriminate].
  intros H. injection H as <-. exact Hfin.
Qed.

(** The topics built from any table of [push] calls: each comes from an
    entry of the table whose variable reads as a finite Number. *)
Lemma pushed_topics (env : string -> option string)
  (table : list (string * string * bool)) (start : list Topic) (t : Topic) :
  In t (fold_left (fun topics '(variable, name, crypto) =>
                     pushTopic topics (env variable) name crypto)
          table start) ->
  In t start
  \/ exists variable,
       In (variable, topic_name t, isCrypto t) table
       /\ num (env variable) = Some (topic_id t).
Proof.
  revert start. induction table as [ | [[variable name] crypto] table IH];
    intros start; cbn [fold_left].
  - auto.
  - intros Hin. destruct (IH _ Hin) as [Hstart | (v & Hv & Hnum)].
    + unfold pushTopic in Hstart.
      destruct (num (env variable)) as [n | ] eqn:Hn; [ | auto].
      apply in_app_or in Hstart. destruct Hstart as [Hs | [<- | []]];
        [auto | ].
      right. exists variable. split; [left; reflexivity | exact Hn].
    + right. exists v. split; [right; exact Hv | exact Hnum].
Qed.

Lemma pushed_topics_length (env : string -> option string)
  (table : list (string * string * bool)) (start : list Topic) :
  (List.length (fold_left (fun topics '(variable, name, crypto) =>
                             pushTopic topics (env variable) name crypto)
                  table start)
   <= List.length start + List.length table)%nat.
Proof.
  revert start. induction table as [ | [[variable name] crypto] table IH];
    intros start; cbn [fold_left List.length].
  - lia.
  - specialize (IH (pushTopic start (env variable) name crypto)).
    unfold pushTopic in *. destruct (num (env variable)).
    + rewrite length_app in IH. simpl in IH. lia.
    + lia.
Qed.

(** X23: whatever the environment holds, [buildTopicsFromEnv] gives at
    most twelve topics; each has a finite Number as id, read from the
    variable of its entry, and a name that is not empty; and a topic is
    flagged as crypto exactly when it is neither [News] nor [Chat]. *)
Theorem built_topics_are_well_formed
  (env : string -> option string) (t : Topic) :
  In t (buildTopicsFromEnv env) ->
  (List.length (buildTopicsFromEnv env) <= 12)%nat
  /\ isFinite (topic_id t) = true
  /\ (exists variable, In (variable, topic_name t, isCrypto t) topicTable
                       /\ num (env variable) = Some (topic_id t))
  /\ topic_name t <> EmptyString
  /\ (isCrypto t = false <-> topic_name t = "News" \/ topic_name t = "Chat").
Proof.
  intros Hin. split; [apply (pushed_topics_length env topicTable []) | ].
  destruct (pushed_topics env topicTable [] t Hin) as [[] | (v & Hv & Hnum)].
  split; [exact (num_is_finite _ _ Hnum) | ].
  split; [exists v; split; assumption | ].
  unfold topicTable in Hv. cbn [In] in Hv.
  repeat match type of Hv with
         | _ \/ _ => destruct Hv as [Hv | Hv]
         end;
    try contradiction; injection Hv as _ Hname Hcrypto;
    rewrite <- Hname, <- Hcrypto;
    (split; [discriminate | ]);
    (split; [intros H; first [discriminate H | auto]
            | intros [H | H]; first [discriminate H | reflexivity]]).
Qed.

Lemma built_topics_are_well_formed_witness :
  (List.length
     (buildTopicsFromEnv
        (fun variable =>
           if String.eqb variable "TELEGRAM_TOPIC_NEWS_ID_PROD"
           then Some "7" else None)) <= 12)%nat
  /\ isFinite (S754_finite false 7881299347898368 (-50)) = true
  /\ (exists variable,
        In (variable, "News", false) topicTable
        /\ num (if String.eqb variable "TELEGRAM_TOPIC_NEWS_ID_PROD"
                then Some "7" else None)
           = Some (S754_finite false 7881299347898368 (-50)))
  /\ "News" <> EmptyString
  /\ (false = false <-> "News" = "News" \/ "News" = "Chat").
Proof.
  apply (built_topics_are_well_formed
           (fun variable =>
              if String.eqb variable "TELEGRAM_TOPIC_NEWS_ID_PROD"
              then Some "7" else None)
           {| topic_id := S754_finite false 7881299347898368 (-50);
              topic_name := "News"; isCrypto := false |}).
  vm_compute. left. reflexivity.
Defined.

Lemma find_rev_some {A} (p : A -> bool) (l : list A) :
  existsb p l = true ->
  exists x, find p (List.rev l) = Some x /\ In x l /\ p x = true.
Proof.
  intros H. destruct (find p (List.rev l)) as [x | ] eqn:Hfind.
  - apply find_some in Hfind. destruct Hfind as [Hin Hp].
    exists x. repeat split; [apply in_rev; exact Hin | exact Hp].
  - apply existsb_exists in H. destruct H as (y & Hin & Hp).
    apply in_rev in Hin. rewrite (find_none _ _ Hfind y Hin) in Hp.
    discriminate Hp.
Qed.

(** X24: an update handled by the forum watcher comes from the forum
    chat, in a thread whose id is not 0 and is the id of a topic flagged
    as crypto; the topic looked up for that thread is always found, is one
    of the topics built, has that id, and gives its own name as label,
    never [Unknown Topic]. *)
Theorem watched_thread_has_a_topic
  (env : string -> option string) (forumChatId : Number)
  (chatId threadId : option Number) :
  watches forumChatId (buildTopicsFromEnv env) chatId threadId = true ->
  sameChat chatId (Some forumChatId) = true
  /\ exists thread t,
       threadId = Some thread /\ truthy thread = true
       /\ isCryptoThread (buildTopicsFromEnv env) thread = true
       /\ topicById (buildTopicsFromEnv env) thread = Some t
       /\ In t (buildTopicsFromEnv env)
       /\ sameValueZero (topic_id t) thread = true
       /\ topicLabel (Some t) = topic_name t
       /\ topicLabel (Some t) <> "Unknown Topic".
Proof.
  unfold watches. destruct threadId as [thread | ]; [ | discriminate].
  intros H. apply andb_true_iff in H. destruct H as [H Hcrypto].
  apply andb_true_iff in H. destruct H as [Hchat Htruthy].
  split; [exact Hchat | ].
  assert (Hsome : existsb (fun t => sameValueZero (topic_id t) thread)
                    (buildTopicsFromEnv env) = true).
  { unfold isCryptoThread in Hcrypto.
    apply existsb_exists in Hcrypto. destruct Hcrypto as (t & Hin & Ht).
    apply andb_true_iff in Ht. apply existsb_exists. exists t.
    split; [exact Hin | apply Ht]. }
  destruct (find_rev_some _ _ Hsome) as (t & Hfind & Hin & Hsame).
  exists thread, t. repeat split; try assumption.
  - unfold topicLabel.
    destruct (pushed_topics env topicTable [] t Hin) as [[] | (v & Hv & _)].
    destruct (String.eqb_spec (topic_name t) EmptyString) as [He | _];
      [ | reflexivity].
    exfalso. rewrite He in Hv. unfold topicTable in Hv. cbn [In] in Hv.
    repeat match type of Hv with
           | _ \/ _ => destruct Hv as [Hv | Hv]
           end; try contradiction; discriminate Hv.
  - unfold topicLabel.
    destruct (pushed_topics env topicTable [] t Hin) as [[] | (v & Hv & _)].
    unfold topicTable in Hv. cbn [In] in Hv.
    repeat match type of Hv with
           | _ \/ _ => destruct Hv as [Hv | Hv]
           end;
      try contradiction; injection Hv as _ Hname _; rewrite <- Hname;
      vm_compute; discriminate.
Qed.

Lemma watched_thread_has_a_topic_witness :
  sameChat (Some exampleForumChat) (Some exampleForumChat) = true
  /\ exists thread t,
       Some thread5 = Some thread /\ truthy thread = true
       /\ isCryptoThread (buildTopicsFromEnv exampleEnv) thread = true
       /\ topicById (buildTopicsFromEnv exampleEnv) thread = Some t
       /\ In t (buildTopicsFromEnv exampleEnv)
       /\ sameValueZero (topic_id t) thread = true
       /\ topicLabel (Some t) = topic_name t
       /\ topicLabel (Some t) <> "Unknown Topic".
Proof.
  apply (watched_thread_has_a_topic exampleEnv exampleForumChat
           (Some exampleForumChat) (Some thread5)).
  vm_compute. reflexivity.
Defined.

(** The news thread of the example is not watched. *)
Example news_thread_is_not_watched :
  toNumber "-1001234567890" = exampleForumChat
  /\ toNumber "5" = thread5
  /\ watches exampleForumChat (buildTopicsFromEnv exampleEnv)
       (Some exampleForumChat) (Some (toNumber "7")) = false.
Proof. repeat split; vm_compute; reflexivity. Qed.

(** ** Trimming twice *)

Lemma trimStart_shape (s : string) :
  exists ws,
    s = (ws ++ trimStart s)%string /\ allWhite ws = true
    /\ (trimStart s = EmptyString \/ startsClean (trimStart s) = true).
Proof.
  induction s as [ | c s IH].
  - exists EmptyString. repeat split. left. reflexivity.
  - simpl. destruct (isWhiteSpace c) eqn:Hc.
    + destruct IH as (ws & Hs & Hws & Hclean).
      exists (String c ws). simpl. rewrite Hc, Hws, <- Hs. repeat split.
      exact Hclean.
    + exists EmptyString. repeat split. right. simpl. rewrite Hc. reflexivity.
Qed.

Lemma startsClean_prefix (a b : string) :
  a <> EmptyString -> startsClean (a ++ b) = true -> startsClean a = true.
Proof. destruct a as [ | c a]; [congruence | auto]. Qed.

Lemma rev_empty (s : string) : rev s = EmptyString -> s = EmptyString.
Proof.
  intros H. rewrite <- (rev_involutive s), H. reflexivity.
Qed.

Lemma trim_idempotent (s : string) : trim (trim s) = trim s.
Proof.
  unfold trim at 2 3. unfold trimEnd.
  destruct (trimStart_shape s) as (ws & _ & _ & Hstart).
  remember (trimStart s) as t eqn:Ht. clear Ht s ws.
  destruct (trimStart_shape (rev t)) as (ws' & Hrev & Hws' & Hu).
  remember (trimStart (rev t)) as u eqn:Hequ. clear Hequ.
  destruct Hu as [-> | Hu]; [reflexivity | ].
  assert (Ht : t = (rev u ++ rev ws')%string).
  { rewrite <- (rev_involutive t), Hrev, rev_app. reflexivity. }
  assert (Hne : rev u <> EmptyString).
  { intros H. apply rev_empty in H. subst u. discriminate Hu. }
  assert (Hclean : startsClean (rev u) = true).
  { destruct Hstart as [-> | Hstart].
    - destruct (rev u); [congruence | discriminate Ht].
    - rewrite Ht in Hstart. exact (startsClean_prefix _ _ Hne Hstart). }
  rewrite <- (append_empty_r (rev u)) at 1.
  change (rev u ++ "")%string with ("" ++ rev u ++ "")%string.
  apply trim_around; try reflexivity; [exact Hclean | ].
  rewrite rev_involutive. exact Hu.
Qed.

(** X25: trimming a text that is already trimmed changes nothing, so the
    text handler, which trims the message before it calls
    [processCommand], gets the parse of the message as sent: the sends to
    the exchange and the answer are those of the untrimmed text. *)
Theorem trimmed_command_parses_the_same
  (client : Client) (cmd : string) (w : World) :
  trim (trim cmd) = trim cmd
  /\ parseCommand_try (trim cmd) = parseCommand_try cmd
  /\ issued (processCommand client (trim cmd)) w
     = issued (processCommand client cmd) w
  /\ result (processCommand client (trim cmd)) w
     = result (processCommand client cmd) w.
Proof.
  assert (Hparse : parseCommand_try (trim cmd) = parseCommand_try cmd).
  { unfold parseCommand_try. rewrite trim_idempotent. reflexivity. }
  split; [apply trim_idempotent | ]. split; [exact Hparse | ].
  pose proof (processCommand_run client (trim cmd) w) as H1.
  pose proof (processCommand_run client cmd w) as H2.
  rewrite Hparse in H1.
  destruct (parseCommand_try cmd) as [err | tp];
    destruct H1 as [-> ->]; destruct H2 as [-> ->]; split; reflexivity.
Qed.
